(** * Business chatbot: credential check, completion client and session flow

    A shallow embedding of [bussines_chatbot.py].  Python strings are
    sequences of Unicode code points, dictionaries are finite maps, the
    Streamlit script is a function from the session store and the widget
    values of one run to the new store and the list of effects of that run. *)

From Stdlib Require Import NArith ZArith String Ascii List Floats.
From stdpp Require Import base option list gmap.
Import ListNotations.

Set Warnings "-register-all,-inexact-float".
Local Open Scope N_scope.

(** ** Python strings *)

(** A [str] is a sequence of code points; [pystr] is only an abbreviation so
    that the instances of [list N] apply. *)
Abbreviation pystr := (list N).

(** An ASCII literal of the source as a [str]. *)
Definition py (s : string) : pystr :=
  map N_of_ascii (list_ascii_of_string s).

(** Code points that [str.isspace] accepts; [str.strip] removes exactly
    these from both ends. *)
Definition isspace (c : N) : bool :=
  (0x09 <=? c) && (c <=? 0x0D)
  || (0x1C <=? c) && (c <=? 0x20)
  || (c =? 0x85) || (c =? 0xA0) || (c =? 0x1680)
  || (0x2000 <=? c) && (c <=? 0x200A)
  || (c =? 0x2028) || (c =? 0x2029) || (c =? 0x202F)
  || (c =? 0x205F) || (c =? 0x3000).

Fixpoint lstrip (s : pystr) : pystr :=
  match s with
  | c :: s' => if isspace c then lstrip s' else s
  | [] => []
  end.

Definition rstrip (s : pystr) : pystr := rev (lstrip (rev s)).

Definition strip (s : pystr) : pystr := rstrip (lstrip s).

(** Exceptions of the Python runtime and of [requests] that the program can
    meet. *)
Inductive exn :=
| KeyError | TypeError | IndexError | AttributeError | UnicodeEncodeError
| ConnectionError | ReadTimeout | HTTPError | JSONDecodeError
| InvalidHeader | FileNotFoundError.

(** [str.encode()]: UTF-8; a surrogate code point cannot be encoded.  The
    code points of a [str] are below 0x110000; a larger number is no
    character and is refused as well. *)
Definition encode_char (c : N) : option (list N) :=
  if c <? 0x80 then Some [c]
  else if c <? 0x800 then
    Some [N.lor 0xC0 (N.shiftr c 6); N.lor 0x80 (N.land c 0x3F)]
  else if (0xD800 <=? c) && (c <=? 0xDFFF) then None
  else if c <? 0x10000 then
    Some [N.lor 0xE0 (N.shiftr c 12);
          N.lor 0x80 (N.land (N.shiftr c 6) 0x3F);
          N.lor 0x80 (N.land c 0x3F)]
  else if c <? 0x110000 then
    Some [N.lor 0xF0 (N.shiftr c 18);
          N.lor 0x80 (N.land (N.shiftr c 12) 0x3F);
          N.lor 0x80 (N.land (N.shiftr c 6) 0x3F);
          N.lor 0x80 (N.land c 0x3F)]
  else None.

Fixpoint encode (s : pystr) : option (list N) :=
  match s with
  | [] => Some []
  | c :: s' =>
      match encode_char c, encode s' with
      | Some b, Some bs => Some (b ++ bs)
      | _, _ => None
      end
  end.

(** A string [encode] accepts: code points below 0x110000, no surrogate. *)
Definition encodable_char (c : N) : bool :=
  (c <? 0xD800) || (0xDFFF <? c) && (c <? 0x110000).

Definition encodable (s : pystr) : bool := forallb encodable_char s.

(** ** SHA-256 ([hashlib.sha256], FIPS 180-4) on 32-bit words held in [N] *)

Module SHA256.

Definition w32 (x : N) : N := x mod 2 ^ 32.
Definition add32 (x y : N) : N := w32 (x + y).
Definition not32 (x : N) : N := N.lxor x 0xFFFFFFFF.
Definition rotr (n x : N) : N :=
  N.lor (N.shiftr x n) (w32 (N.shiftl x (32 - n))).
Definition shr (n x : N) : N := N.shiftr x n.

Definition Ch (x y z : N) : N := N.lxor (N.land x y) (N.land (not32 x) z).
Definition Maj (x y z : N) : N :=
  N.lxor (N.lxor (N.land x y) (N.land x z)) (N.land y z).
Definition bsig0 (x : N) : N := N.lxor (N.lxor (rotr 2 x) (rotr 13 x)) (rotr 22 x).
Definition bsig1 (x : N) : N := N.lxor (N.lxor (rotr 6 x) (rotr 11 x)) (rotr 25 x).
Definition ssig0 (x : N) : N := N.lxor (N.lxor (rotr 7 x) (rotr 18 x)) (shr 3 x).
Definition ssig1 (x : N) : N := N.lxor (N.lxor (rotr 17 x) (rotr 19 x)) (shr 10 x).

Definition K : list N :=
  [ 0x428A2F98; 0x71374491; 0xB5C0FBCF; 0xE9B5DBA5;
    0x3956C25B; 0x59F111F1; 0x923F82A4; 0xAB1C5ED5;
    0xD807AA98; 0x12835B01; 0x243185BE; 0x550C7DC3;
    0x72BE5D74; 0x80DEB1FE; 0x9BDC06A7; 0xC19BF174;
    0xE49B69C1; 0xEFBE4786; 0x0FC19DC6; 0x240CA1CC;
    0x2DE92C6F; 0x4A7484AA; 0x5CB0A9DC; 0x76F988DA;
    0x983E5152; 0xA831C66D; 0xB00327C8; 0xBF597FC7;
    0xC6E00BF3; 0xD5A79147; 0x06CA6351; 0x14292967;
    0x27B70A85; 0x2E1B2138; 0x4D2C6DFC; 0x53380D13;
    0x650A7354; 0x766A0ABB; 0x81C2C92E; 0x92722C85;
    0xA2BFE8A1; 0xA81A664B; 0xC24B8B70; 0xC76C51A3;
    0xD192E819; 0xD6990624; 0xF40E3585; 0x106AA070;
    0x19A4C116; 0x1E376C08; 0x2748774C; 0x34B0BCB5;
    0x391C0CB3; 0x4ED8AA4A; 0x5B9CCA4F; 0x682E6FF3;
    0x748F82EE; 0x78A5636F; 0x84C87814; 0x8CC70208;
    0x90BEFFFA; 0xA4506CEB; 0xBEF9A3F7; 0xC67178F2 ].

(** The eight working variables, also the chaining value. *)
Record regs := Regs { ra : N; rb : N; rc : N; rd : N;
                      re : N; rf : N; rg : N; rh : N }.

Definition H0 : regs :=
  Regs 0x6A09E667 0xBB67AE85 0x3C6EF372 0xA54FF53A
       0x510E527F 0x9B05688C 0x1F83D9AB 0x5BE0CD19.

(** Padding: a 1 bit, zeros up to 56 mod 64 bytes, the bit length on 8 bytes. *)
Definition be_bytes (n : nat) (x : N) : list N :=
  map (fun i => N.land (N.shiftr x (8 * N.of_nat i)) 0xFF) (rev (seq 0 n)).

Definition pad (msg : list N) : list N :=
  let len := N.of_nat (length msg) in
  let zeros := N.to_nat ((55 + 64 - len mod 64) mod 64) in
  msg ++ [0x80] ++ repeat 0 zeros ++ be_bytes 8 ((8 * len) mod 2 ^ 64).

(** Big-endian 32-bit words of a byte sequence (complete groups of 4). *)
Fixpoint words (bs : list N) : list N :=
  match bs with
  | b0 :: b1 :: b2 :: b3 :: bs' =>
      N.lor (N.shiftl b0 24) (N.lor (N.shiftl b1 16) (N.lor (N.shiftl b2 8) b3))
      :: words bs'
  | _ => []
  end.

(** One round: [w] is the window W[t..t+15] of the message schedule. *)
Definition round (k : N) (st : regs * list N) : regs * list N :=
  let '(r, w) := st in
  let wt := nth 0 w 0 in
  let t1 := add32 (add32 (add32 (add32 (rh r) (bsig1 (re r))) (Ch (re r) (rf r) (rg r))) k) wt in
  let t2 := add32 (bsig0 (ra r)) (Maj (ra r) (rb r) (rc r)) in
  let wn := add32 (add32 (add32 (ssig1 (nth 14 w 0)) (nth 9 w 0)) (ssig0 (nth 1 w 0))) wt in
  (Regs (add32 t1 t2) (ra r) (rb r) (rc r) (add32 (rd r) t1) (re r) (rf r) (rg r),
   tl w ++ [wn]).

Definition compress (h : regs) (block : list N) : regs :=
  let r := fst (fold_left (fun st k => round k st) K (h, block)) in
  Regs (add32 (ra h) (ra r)) (add32 (rb h) (rb r)) (add32 (rc h) (rc r))
       (add32 (rd h) (rd r)) (add32 (re h) (re r)) (add32 (rf h) (rf r))
       (add32 (rg h) (rg r)) (add32 (rh h) (rh r)).

(** The 16-word blocks of a word sequence; [fuel] bounds the number of blocks. *)
Fixpoint blocks (fuel : nat) (ws : list N) : list (list N) :=
  match fuel, ws with
  | S fuel', _ :: _ => firstn 16 ws :: blocks fuel' (skipn 16 ws)
  | _, _ => []
  end.

Definition digest_regs (msg : list N) : regs :=
  let ws := words (pad msg) in
  fold_left compress (blocks (length ws) ws) H0.

Definition digest (msg : list N) : list N :=
  let r := digest_regs msg in
  flat_map (be_bytes 4) [ra r; rb r; rc r; rd r; re r; rf r; rg r; rh r].

(** [hexdigest()]: two lowercase hexadecimal digits per byte, as a [str]. *)
Definition hexdigit (d : N) : N :=
  if d <? 10 then 0x30 + d else 0x61 + (d - 10).

Definition hexdigest (msg : list N) : pystr :=
  flat_map (fun b => [hexdigit (N.shiftr b 4); hexdigit (N.land b 0xF)]) (digest msg).

End SHA256.

(** ** Python values, exceptions and the effects of one script run *)

(** The values a parsed JSON document or a [json=] payload is made of. *)
Inductive pyval :=
| PNone
| PBool (b : bool)
| PInt (z : Z)
| PFloat (f : float)
| PStr (s : pystr)
| PList (l : list pyval)
| PDict (d : gmap pystr pyval).

(** What ends a computation early: an exception, or one of Streamlit's
    script-control signals ([st.experimental_rerun], [st.stop]); the latter
    are not instances of [Exception]. *)
Inductive signal := Raise (e : exn) | Rerun | Stop.

Inductive outcome (A : Type) :=
| Done (a : A)
| Abort (s : signal).
Arguments Done {A} a.
Arguments Abort {A} s.

(** [requests.post(url, headers=..., json=...)] *)
Record http_request := HttpRequest {
  rq_url : pystr;
  rq_headers : gmap pystr pystr;
  rq_json : gmap pystr pyval
}.

(** A response: its status code and what [response.json()] parses the
    body to ([None] when the body is not JSON). *)
Record response := Response {
  status_code : Z;
  json_body : option pyval
}.

Inductive http_result :=
| Failed (e : exn)          (* no response: connection error, timeout, ... *)
| Responded (r : response).

(** The calls into Streamlit that draw something. *)
Inductive st_call :=
| set_page_config (page_title : pystr)
| markdown_style                       (* the style sheet of set_dark_mode_style *)
| title (s : pystr)
| header (s : pystr)
| sidebar_header (s : pystr)
| form (key : pystr)
| text_input (label : pystr)
| text_area (label : pystr)
| button (label : pystr)
| sidebar_button (label : pystr)
| form_submit_button (label : pystr)
| tabs (labels : list pystr)
| chat_input (label : pystr)
| chat_message (role : pystr)
| spinner (text : pystr)
| error (s : pystr)
| success (s : pystr)
| write (s : pystr).

(** What a run does to the outside, in order.  [Post] records a call of
    [requests.post], whether or not a response arrives.  [LogError] holds
    the whole line given to [logger.error] and, for a line that reports an
    exception, the class of that exception. *)
Inductive event :=
| LogError (msg : pystr) (detail : option exn)   (* logger.error *)
| Post (rq : http_request)                       (* requests.post *)
| St (c : st_call).

(** [st.session_state]: each of the three keys may be absent. *)
Record session_state := SessionState {
  logged_in : option bool;
  username : option pystr;
  chat_history : option (list (pystr * pystr))
}.

(** [st.secrets]: the secrets cannot be loaded (no secrets file: every
    access raises, FileNotFoundError in the Streamlit release the program
    was written for), or they are a mapping. *)
Inductive secrets_state :=
| NoSecrets (x : exn)
| Secrets (d : gmap pystr pystr).

(** What the outside provides to a run: the secrets, the answer of the
    network to the [n]-th request of the run, and [str(e)], the text of an
    exception of class [x] met on the [n]-th request [rq].  That text is
    written by whoever raises the exception ([requests], the JSON decoder,
    the Python runtime) and may quote the request, its headers included. *)
Record env := Environment {
  secrets_source : secrets_state;
  net : nat -> http_request -> http_result;
  exn_text : nat -> http_request -> exn -> pystr
}.

(** The mapping of the secrets; empty when they cannot be loaded. *)
Definition secrets (e : env) : gmap pystr pystr :=
  match secrets_source e with
  | Secrets d => d
  | NoSecrets _ => ∅
  end.

(** An environment whose secrets load as [d], with the network [n], in
    which every exception has the same short text. *)
Definition Env (d : gmap pystr pystr) (n : nat -> http_request -> http_result) : env :=
  Environment (Secrets d) n (fun _ _ _ => py "failed").

Record machine := Machine {
  session : session_state;
  trace : list event
}.

(** Computations: read the environment, update the machine, finish or abort. *)
Definition M (A : Type) : Type := env -> machine -> outcome A * machine.

Definition ret {A} (a : A) : M A := fun _ m => (Done a, m).

Definition bind {A B} (c : M A) (k : A -> M B) : M B :=
  fun e m =>
    match c e m with
    | (Done a, m') => k a e m'
    | (Abort s, m') => (Abort s, m')
    end.

Notation "'let*' x ':=' c 'in' k" := (bind c (fun x => k))
  (at level 10, x pattern, c at level 100, k at level 200).
Notation "c ';;' k" := (bind c (fun _ => k))
  (at level 100, k at level 200, right associativity).

Definition lift {A} (o : outcome A) : M A := fun _ m => (o, m).

Definition raise {A} (x : exn) : M A := lift (Abort (Raise x)).

(** [try: c except <caught> as e: h e] *)
Definition try_except {A} (c : M A) (caught : exn -> bool) (h : exn -> M A) : M A :=
  fun e m =>
    match c e m with
    | (Abort (Raise x), m') =>
        if caught x then h x e m' else (Abort (Raise x), m')
    | r => r
    end.

(** [except Exception]: every exception of the model. *)
Definition Exception (x : exn) : bool := true.

(** [except KeyError] *)
Definition is_KeyError (x : exn) : bool :=
  match x with KeyError => true | _ => false end.

Definition emit (ev : event) : M unit :=
  fun _ m => (Done tt, Machine (session m) (trace m ++ [ev])).

Definition st (c : st_call) : M unit := emit (St c).

Definition logger_error (msg : pystr) (detail : option exn) : M unit :=
  emit (LogError msg detail).

(** The requests of a trace, in the order they were sent. *)
Definition posts (t : list event) : list http_request :=
  flat_map (fun ev => match ev with Post rq => [rq] | _ => [] end) t.

Definition requests_post (rq : http_request) : M response :=
  fun e m =>
    let m' := Machine (session m) (trace m ++ [Post rq]) in
    match net e (length (posts (trace m))) rq with
    | Failed x => (Abort (Raise x), m')
    | Responded r => (Done r, m')
    end.

Definition get_session : M session_state := fun _ m => (Done (session m), m).

Definition set_session (s : session_state) : M unit :=
  fun _ m => (Done tt, Machine s (trace m)).

(** Reading an attribute of [st.session_state] that is not set raises. *)
Definition read {A} (field : session_state -> option A) : M A :=
  let* s := get_session in
  match field s with
  | Some a => ret a
  | None => raise AttributeError
  end.

(** [for x in l: body x] *)
Fixpoint for_each {A} (l : list A) (body : A -> M unit) : M unit :=
  match l with
  | [] => ret tt
  | x :: l' => body x;; for_each l' body
  end.

(** ** User authentication *)

(** [hashlib.sha256(s.encode()).hexdigest()] *)
Definition sha256_hex (s : pystr) : outcome pystr :=
  match encode s with
  | Some bytes => Done (SHA256.hexdigest bytes)
  | None => Abort (Raise UnicodeEncodeError)
  end.

(** The module-level dictionary, built when the module is loaded. *)
Definition users_literal : outcome (gmap pystr pystr) :=
  match sha256_hex (py "user1"), sha256_hex (py "password2") with
  | Done h1, Done h2 => Done (<[py "user2" := h2]> (<[py "Moin" := h1]> ∅))
  | Abort s, _ | _, Abort s => Abort s
  end.

Definition users : gmap pystr pystr :=
  match users_literal with
  | Done d => d
  | Abort _ => ∅
  end.

Definition verify_password (username password : pystr) : outcome bool :=
  match users !! username with
  | Some stored =>
      match sha256_hex password with
      | Done hashed_input => Done (bool_decide (stored = hashed_input))
      | Abort s => Abort s
      end
  | None => Done false
  end.

(** ** BusinessChatbot *)

Record BusinessChatbot := Chatbot {
  api_key : pystr;
  base_url : pystr
}.

(** [st.secrets[key]]: what loading the secrets raises, or the value of
    the key, or KeyError. *)
Definition st_secrets (key : pystr) : M pystr :=
  fun e m =>
    match secrets_source e with
    | NoSecrets x => (Abort (Raise x), m)
    | Secrets d =>
        match d !! key with
        | Some v => (Done v, m)
        | None => (Abort (Raise KeyError), m)
        end
    end.

Definition st_stop {A} : M A := lift (Abort Stop).

Definition st_experimental_rerun {A} : M A := lift (Abort Rerun).

(** [BusinessChatbot.__init__] *)
Definition BusinessChatbot_init : M BusinessChatbot :=
  let* key :=
    try_except (st_secrets (py "NVIDIA_API_KEY")) is_KeyError
      (fun _ =>
         logger_error (py "NVIDIA_API_KEY not found in Streamlit secrets.") None;;
         st (error (py "Server configuration error. Please contact the administrator."));;
         st_stop) in
  ret (Chatbot key (py "https://integrate.api.nvidia.com/v1")).

(** [response.raise_for_status()]: an [HTTPError] for the client and server
    error codes, 400 to 599, and for no other. *)
Definition raise_for_status (r : response) : M unit :=
  if ((400 <=? status_code r) && (status_code r <? 600))%Z
  then raise HTTPError else ret tt.

(** [response.json()] *)
Definition response_json (r : response) : M pyval :=
  match json_body r with
  | Some v => ret v
  | None => raise JSONDecodeError
  end.

(** [v[key]] with a string key *)
Definition getitem_str (v : pyval) (key : pystr) : outcome pyval :=
  match v with
  | PDict d =>
      match d !! key with
      | Some x => Done x
      | None => Abort (Raise KeyError)
      end
  | _ => Abort (Raise TypeError)
  end.

(** [v[i]] with an index [i >= 0]; the keys of a dictionary that comes from
    JSON are strings, so an integer is never one of them. *)
Definition getitem_int (v : pyval) (i : nat) : outcome pyval :=
  match v with
  | PList l =>
      match l !! i with
      | Some x => Done x
      | None => Abort (Raise IndexError)
      end
  | PStr s =>
      match s !! i with
      | Some c => Done (PStr [c])
      | None => Abort (Raise IndexError)
      end
  | PDict _ => Abort (Raise KeyError)
  | _ => Abort (Raise TypeError)
  end.

(** [v.strip()] *)
Definition method_strip (v : pyval) : outcome pystr :=
  match v with
  | PStr s => Done (strip s)
  | _ => Abort (Raise AttributeError)
  end.

Definition model_id : pystr := py "nvidia/mistral-nemo-minitron-8b-base".

Definition fallback : pystr :=
  py "An error occurred while processing your request. Please try again later.".

(** The default of the parameter [max_tokens] of [get_response]. *)
Definition default_max_tokens : Z := 200.

(** The locals [headers] and [data] of [get_response]. *)
Definition headers (self : BusinessChatbot) : gmap pystr pystr :=
  <[py "Content-Type" := py "application/json"]>
    (<[py "Authorization" := py "Bearer " ++ api_key self]> ∅).

(** 0.7 and 0.95 stand for the doubles nearest to them, as in Python. *)
Definition data (prompt : pystr) (max_tokens : Z) : gmap pystr pyval :=
  <[py "stream" := PBool false]>
    (<[py "max_tokens" := PInt max_tokens]>
       (<[py "top_p" := PFloat 0.95]>
          (<[py "temperature" := PFloat 0.7]>
             (<[py "prompt" := PStr prompt]>
                (<[py "model" := PStr model_id]> ∅))))).

(** The number of requests the run has sent so far. *)
Definition requests_sent : M nat :=
  fun _ m => (Done (length (posts (trace m))), m).

(** [str(e)] for the exception [x] met on the [n]-th request [rq]. *)
Definition str_exception (n : nat) (rq : http_request) (x : exn) : M pystr :=
  fun e m => (Done (exn_text e n rq x), m).

Definition get_response (self : BusinessChatbot) (prompt : pystr) (max_tokens : Z)
  : M pystr :=
  let rq :=
    HttpRequest (base_url self ++ py "/completions")
      (headers self) (data prompt max_tokens) in
  let* n := requests_sent in
  try_except
    (let* response := requests_post rq in
     raise_for_status response;;
     let* body := response_json response in
     let* choices := lift (getitem_str body (py "choices")) in
     let* choice := lift (getitem_int choices 0) in
     let* text := lift (getitem_str choice (py "text")) in
     lift (method_strip text))
    Exception
    (fun e =>
       let* text := str_exception n rq e in
       logger_error (py "API request failed: " ++ text) (Some e);;
       ret fallback).

Definition NL : pystr := [0x0A].

(** The first line of the prompt of [answer_business_question]. *)
Definition question_instruction : pystr :=
  py "You are a professional business assistant. Please provide a helpful and insightful answer to the following business-related question:".

Definition question_prompt (question : pystr) : pystr :=
  question_instruction ++ NL ++ NL
  ++ py "Question: " ++ question ++ NL ++ NL ++ py "Answer:".

Definition answer_business_question (self : BusinessChatbot) (question : pystr)
  : M pystr :=
  get_response self (question_prompt question) 300.

(** The first line of the prompt of [brainstorm_ideas]. *)
Definition topic_instruction : pystr :=
  py "You are a creative business strategist. Please brainstorm innovative ideas related to the following business topic:".

Definition topic_prompt (topic : pystr) : pystr :=
  topic_instruction ++ NL ++ NL
  ++ py "Topic: " ++ topic ++ NL ++ NL ++ py "Ideas:".

Definition brainstorm_ideas (self : BusinessChatbot) (topic : pystr) : M pystr :=
  get_response self (topic_prompt topic) 400.

(** ** Main application *)

(** The values the widgets return in one run of the script. *)
Record inputs := Inputs {
  in_username : pystr;
  in_password : pystr;
  in_submit : bool;
  in_logout : bool;
  in_question : pystr;
  in_get_answer : bool;
  in_topic : pystr;
  in_generate_ideas : bool;
  in_chat : option pystr       (* st.chat_input: None when nothing was sent *)
}.

Definition widget {A} (c : st_call) (value : A) : M A := st c;; ret value.

Definition set_logged_in (b : bool) : M unit :=
  let* s := get_session in
  set_session (SessionState (Some b) (username s) (chat_history s)).

Definition set_username (u : pystr) : M unit :=
  let* s := get_session in
  set_session (SessionState (logged_in s) (Some u) (chat_history s)).

Definition set_chat_history (h : list (pystr * pystr)) : M unit :=
  let* s := get_session in
  set_session (SessionState (logged_in s) (username s) (Some h)).

(** [st.session_state.chat_history.append(turn)] *)
Definition chat_history_append (turn : pystr * pystr) : M unit :=
  let* h := read chat_history in
  set_chat_history (h ++ [turn]).

Definition when (b : bool) (c : M unit) : M unit := if b then c else ret tt.

Definition init_session_state : M unit :=
  let* s := get_session in
  when (bool_decide (logged_in s = None)) (set_logged_in false);;
  let* s := get_session in
  when (bool_decide (username s = None)) (set_username []);;
  let* s := get_session in
  when (bool_decide (chat_history s = None)) (set_chat_history []).

Definition set_dark_mode_style : M unit := st markdown_style.

Definition login_form (inp : inputs) : M unit :=
  st (header ([0x1F512] ++ py " Please Log In"));;
  st (form (py "login_form"));;
  let* username := widget (text_input (py "Username")) (in_username inp) in
  let* password := widget (text_input (py "Password")) (in_password inp) in
  let* submit := widget (form_submit_button (py "Login")) (in_submit inp) in
  when submit
    (let* ok := lift (verify_password username password) in
     if ok then
       set_logged_in true;;
       set_username username;;
       st (success (py "Logged in successfully!"));;
       st_experimental_rerun
     else
       st (error (py "Invalid username or password."))).

Definition logout_button (inp : inputs) : M unit :=
  let* u := read username in
  st (sidebar_header (py "Welcome, " ++ u ++ py "!"));;
  let* pressed := widget (sidebar_button (py "Logout")) (in_logout inp) in
  when pressed
    (set_logged_in false;;
     set_username [];;
     set_chat_history [];;
     st_experimental_rerun).

Definition tab1 (chatbot : BusinessChatbot) (inp : inputs) : M unit :=
  st (header (py "Ask a Business Question"));;
  let* question :=
    widget (text_area (py "Enter your business-related question:")) (in_question inp) in
  let* get_answer := widget (button (py "Get Answer")) (in_get_answer inp) in
  when get_answer
    (if bool_decide (strip question = []) then
       st (error (py "Please enter a valid question."))
     else
       st (spinner (py "Thinking..."));;
       let* answer := answer_business_question chatbot question in
       st (success (py "Here's your answer:"));;
       st (write answer)).

Definition tab2 (chatbot : BusinessChatbot) (inp : inputs) : M unit :=
  st (header (py "Business Idea Brainstorming"));;
  let* topic :=
    widget (text_input (py "Enter a business topic for brainstorming:")) (in_topic inp) in
  let* generate_ideas := widget (button (py "Generate Ideas")) (in_generate_ideas inp) in
  when generate_ideas
    (if bool_decide (strip topic = []) then
       st (error (py "Please enter a valid topic."))
     else
       st (spinner (py "Brainstorming..."));;
       let* ideas := brainstorm_ideas chatbot topic in
       st (success (py "Here are some innovative ideas:"));;
       st (write ideas)).

(** [if user_input:] holds for a string that is not empty. *)
Definition truthy (v : option pystr) : option pystr :=
  match v with
  | Some (c :: s) => Some (c :: s)
  | _ => None
  end.

Definition chat_interface (chatbot : BusinessChatbot) (inp : inputs) : M unit :=
  st (header ([0x1F4AC] ++ py " Chat with Business AI"));;
  let* history := read chat_history in
  for_each history
    (fun turn => st (chat_message (fst turn));; st (write (snd turn)));;
  let* user_input :=
    widget (chat_input (py "Ask me anything about business:")) (in_chat inp) in
  match truthy user_input with
  | Some user_input =>
      chat_history_append (py "user", user_input);;
      st (chat_message (py "user"));;
      st (write user_input);;
      st (chat_message (py "assistant"));;
      st (spinner (py "Thinking..."));;
      let* response := answer_business_question chatbot user_input in
      st (write response);;
      chat_history_append (py "assistant", response)
  | None => ret tt
  end.

Definition main (inp : inputs) : M unit :=
  st (set_page_config (py "Business AI Assistant"));;
  set_dark_mode_style;;
  st (title ([0x1F4BC] ++ py " Professional Business AI Assistant"));;
  init_session_state;;
  let* logged := read logged_in in
  if negb logged then
    login_form inp
  else
    logout_button inp;;
    let* chatbot := BusinessChatbot_init in
    st (tabs [[0x1F4AC] ++ py " Business Q&A"; [0x1F4A1] ++ py " Idea Brainstorming"]);;
    tab1 chatbot inp;;
    tab2 chatbot inp;;
    chat_interface chatbot inp.

(** One run of the script: the session store persists, the trace starts
    empty, and the store is kept however the run ends. *)
Definition run (e : env) (s : session_state) (inp : inputs) : outcome unit * machine :=
  main inp e (Machine s []).

Definition next_session (e : env) (s : session_state) (inp : inputs) : session_state :=
  session (snd (run e s inp)).

Definition run_trace (e : env) (s : session_state) (inp : inputs) : list event :=
  trace (snd (run e s inp)).

(** A browser session starts with an empty store. *)
Definition empty_session : session_state := SessionState None None None.

(** The stores a browser session can be in: the empty one, and what a run
    leaves from one of them, for any environment and any widget values. *)
Inductive reachable : session_state -> Prop :=
| reach_start : reachable empty_session
| reach_run e s inp : reachable s -> reachable (next_session e s inp).

(** ** Reference descriptions used in the statements *)

(** The subscripts and the [strip] of [get_response] on a parsed body. *)
Definition extract_text (body : pyval) : outcome pystr :=
  match getitem_str body (py "choices") with
  | Done choices =>
      match getitem_int choices 0 with
      | Done choice =>
          match getitem_str choice (py "text") with
          | Done text => method_strip text
          | Abort s => Abort s
          end
      | Abort s => Abort s
      end
  | Abort s => Abort s
  end.

(** What [get_response] makes of the answer of the network, as a pure
    function: the text it extracts, or the exception it meets. *)
Definition reply_outcome (reply : http_result) : outcome pystr :=
  match reply with
  | Failed x => Abort (Raise x)
  | Responded r =>
      if ((400 <=? status_code r) && (status_code r <? 600))%Z
      then Abort (Raise HTTPError)
      else
        match json_body r with
        | None => Abort (Raise JSONDecodeError)
        | Some body => extract_text body
        end
  end.

Definition reply_text (reply : http_result) : pystr :=
  match reply_outcome reply with
  | Done t => t
  | Abort _ => fallback
  end.

(** What [get_response] logs for the [n]-th request [rq] of the run. *)
Definition reply_log (e : env) (n : nat) (rq : http_request) : list event :=
  match reply_outcome (net e n rq) with
  | Abort (Raise x) =>
      [LogError (py "API request failed: " ++ exn_text e n rq x) (Some x)]
  | _ => []
  end.

(** The request [get_response] sends. *)
Definition completion_request (self : BusinessChatbot) (prompt : pystr)
    (max_tokens : Z) : http_request :=
  HttpRequest (base_url self ++ py "/completions") (headers self)
    (data prompt max_tokens).

(** [choices[0].text] of a well-formed body, in the words of the interface
    description: an object whose [choices] is a list that starts with an
    object whose [text] is a string. *)
Definition choices0_text (body : pyval) : option pystr :=
  match body with
  | PDict d =>
      match d !! py "choices" with
      | Some (PList (PDict c :: _)) =>
          match c !! py "text" with
          | Some (PStr t) => Some t
          | _ => None
          end
      | _ => None
      end
  | _ => None
  end.

(** The client the constructor builds from the key [k]. *)
Definition client (k : pystr) : BusinessChatbot :=
  Chatbot k (py "https://integrate.api.nvidia.com/v1").

(** The error messages a trace shows with [st.error]. *)
Definition errors (t : list event) : list pystr :=
  flat_map (fun ev => match ev with St (error s) => [s] | _ => [] end) t.

(** The text [answer_business_question] returns for [user_input] when its
    request is the [n]-th of the run and the client holds the key [k]. *)
Definition answer_of (e : env) (k : pystr) (n : nat) (user_input : pystr) : pystr :=
  reply_text (net e n (completion_request (client k) (question_prompt user_input) 300)).

(** A string inside another. *)
Definition contains (s sub : pystr) : Prop :=
  exists before after, s = before ++ sub ++ after.

(** A transcript that alternates user and assistant turns, grown at the end. *)
Inductive alternating : list (pystr * pystr) -> Prop :=
| alt_nil : alternating []
| alt_snoc h u r :
    alternating h ->
    alternating (h ++ [(py "user", u); (py "assistant", r)]).

(** The store once the three keys are set. *)
Definition initialised (s : session_state) : session_state :=
  SessionState (Some (default false (logged_in s)))
               (Some (default [] (username s)))
               (Some (default [] (chat_history s))).


(** *** The events of each part of the page

    [n] is the number of requests the run has sent before the part starts;
    it selects the answers of the network. *)

Definition tab1_events (chatbot : BusinessChatbot) (inp : inputs) (e : env) (n : nat)
  : list event :=
  [St (header (py "Ask a Business Question"));
   St (text_area (py "Enter your business-related question:"));
   St (button (py "Get Answer"))]
  ++ (if in_get_answer inp then
        if bool_decide (strip (in_question inp) = []) then
          [St (error (py "Please enter a valid question."))]
        else
          let rq := completion_request chatbot (question_prompt (in_question inp)) 300 in
          [St (spinner (py "Thinking...")); Post rq]
          ++ reply_log e n rq
          ++ [St (success (py "Here's your answer:"));
              St (write (reply_text (net e n rq)))]
      else []).

Definition tab2_events (chatbot : BusinessChatbot) (inp : inputs) (e : env) (n : nat)
  : list event :=
  [St (header (py "Business Idea Brainstorming"));
   St (text_input (py "Enter a business topic for brainstorming:"));
   St (button (py "Generate Ideas"))]
  ++ (if in_generate_ideas inp then
        if bool_decide (strip (in_topic inp) = []) then
          [St (error (py "Please enter a valid topic."))]
        else
          let rq := completion_request chatbot (topic_prompt (in_topic inp)) 400 in
          [St (spinner (py "Brainstorming...")); Post rq]
          ++ reply_log e n rq
          ++ [St (success (py "Here are some innovative ideas:"));
              St (write (reply_text (net e n rq)))]
      else []).

(** The transcript as the chat interface draws it. *)
Definition render (history : list (pystr * pystr)) : list event :=
  flat_map (fun turn => [St (chat_message (fst turn)); St (write (snd turn))]) history.

Definition chat_events (chatbot : BusinessChatbot) (inp : inputs)
    (history : list (pystr * pystr)) (e : env) (n : nat) : list event :=
  [St (header ([0x1F4AC] ++ py " Chat with Business AI"))]
  ++ render history
  ++ [St (chat_input (py "Ask me anything about business:"))]
  ++ match truthy (in_chat inp) with
     | Some user_input =>
         let rq := completion_request chatbot (question_prompt user_input) 300 in
         [St (chat_message (py "user")); St (write user_input);
          St (chat_message (py "assistant")); St (spinner (py "Thinking..."));
          Post rq]
         ++ reply_log e n rq
         ++ [St (write (reply_text (net e n rq)))]
     | None => []
     end.

(** The transcript after the chat interface has run. *)
Definition chat_history_after (chatbot : BusinessChatbot) (inp : inputs)
    (history : list (pystr * pystr)) (e : env) (n : nat) : list (pystr * pystr) :=
  match truthy (in_chat inp) with
  | Some user_input =>
      let rq := completion_request chatbot (question_prompt user_input) 300 in
      history ++ [(py "user", user_input); (py "assistant", reply_text (net e n rq))]
  | None => history
  end.

(** What every run draws first. *)
Definition page_top : list event :=
  [St (set_page_config (py "Business AI Assistant"));
   St markdown_style;
   St (title ([0x1F4BC] ++ py " Professional Business AI Assistant"))].

Definition login_widgets : list event :=
  [St (header ([0x1F512] ++ py " Please Log In"));
   St (form (py "login_form"));
   St (text_input (py "Username"));
   St (text_input (py "Password"));
   St (form_submit_button (py "Login"))].

Definition sidebar_events (user : pystr) : list event :=
  [St (sidebar_header (py "Welcome, " ++ user ++ py "!"));
   St (sidebar_button (py "Logout"))].

Definition missing_key_events : list event :=
  [LogError (py "NVIDIA_API_KEY not found in Streamlit secrets.") None;
   St (error (py "Server configuration error. Please contact the administrator."))].

(** What the constructor does when the key is not found: stop after the
    two messages, or let the exception of the secrets pass. *)
Definition init_failure (e : env) : signal * list event :=
  match secrets_source e with
  | NoSecrets x =>
      if is_KeyError x then (Stop, missing_key_events) else (Raise x, [])
  | Secrets _ => (Stop, missing_key_events)
  end.

Definition tabs_event : event :=
  St (tabs [[0x1F4AC] ++ py " Business Q&A"; [0x1F4A1] ++ py " Idea Brainstorming"]).

(** The store after a logout. *)
Definition cleared : session_state := SessionState (Some false) (Some []) (Some []).

(** The events of the three parts below the tabs, one after the other. *)
Definition body_events (chatbot : BusinessChatbot) (inp : inputs)
    (history : list (pystr * pystr)) (e : env) : list event :=
  let t1 := tab1_events chatbot inp e 0 in
  let t2 := tab2_events chatbot inp e (length (posts t1)) in
  t1 ++ t2 ++ chat_events chatbot inp history e (length (posts t1) + length (posts t2)).

(** The stores a browser session goes through: the empty one, the
    logged-out one, or a logged-in one whose transcript alternates. *)
Definition session_ok (s : session_state) : Prop :=
  s = empty_session \/ s = cleared
  \/ exists user history,
       s = SessionState (Some true) (Some user) (Some history)
       /\ alternating history.

(** *** Concrete inputs of the examples *)

(** The body {"choices": [{"text": "  Hello World  "}]} *)
Definition body_hello : pyval :=
  PDict (<[py "choices" :=
             PList [PDict (<[py "text" := PStr (py "  Hello World  ")]> ∅)]]> ∅).

(** A network that answers every request with the status [status] and the
    body [body_hello]. *)
Definition answering (status : Z) : nat -> http_request -> http_result :=
  fun _ _ => Responded (Response status (Some body_hello)).

(** A network that is down. *)
Definition offline : nat -> http_request -> http_result :=
  fun _ _ => Failed ConnectionError.

(** An environment with no secrets file: every access to the secrets
    raises FileNotFoundError. *)
Definition without_secrets_file (n : nat -> http_request -> http_result) : env :=
  Environment (NoSecrets FileNotFoundError) n (fun _ _ _ => py "failed").

Definition with_key : gmap pystr pystr := <[py "NVIDIA_API_KEY" := py "secret"]> ∅.

(** A store of a logged-in session with an empty transcript. *)
Definition moin_session : session_state :=
  SessionState (Some true) (Some (py "Moin")) (Some []).

(** Only the chat input used. *)
Definition chatting (text : pystr) : inputs :=
  Inputs [] [] false false [] false [] false (Some text).

Arguments py : simpl never.
Arguments strip : simpl never.
Arguments SHA256.hexdigest : simpl never.
Arguments headers : simpl never.
Arguments data : simpl never.
Arguments sidebar_events : simpl never.
Arguments tab1_events : simpl never.
Arguments tab2_events : simpl never.
Arguments chat_events : simpl never.
Arguments chat_history_after : simpl never.
Arguments render : simpl never.
Arguments missing_key_events : simpl never.

(** Proof steps for running the monad on a symbolic machine. *)
Ltac run_step :=
  unfold bind, ret, st, emit, widget, when, read, get_session, set_session,
    lift, raise; simpl.

Ltac tidy := rewrite <- ?app_assoc; simpl; try reflexivity.

(** *** Further descriptions *)

(** A string made of whitespace only (the empty one too). *)
Definition blank (s : pystr) : bool := forallb isspace s.

(** The stores in which a logged-in user is a registered one. *)
Definition session_registered (s : session_state) : Prop :=
  s = empty_session \/ s = cleared
  \/ exists user stored history,
       s = SessionState (Some true) (Some user) (Some history)
       /\ users !! user = Some stored.

(** An event with the headers of its request and the text of its logged
    exception left out. *)
Definition redact (ev : event) : event :=
  match ev with
  | Post rq => Post (HttpRequest (rq_url rq) ∅ (rq_json rq))
  | LogError _ (Some x) => LogError [] (Some x)
  | _ => ev
  end.

(** What a trace draws: its calls into Streamlit. *)
Definition drawn (t : list event) : list st_call :=
  flat_map (fun ev => match ev with St c => [c] | _ => [] end) t.

(** An exception text that quotes the Authorization header of the request,
    as the text of InvalidHeader does. *)
Definition quoting_header : nat -> http_request -> exn -> pystr :=
  fun _ rq _ => default [] (rq_headers rq !! py "Authorization").

(** The characters of a lowercase hexadecimal number. *)
Definition is_hex (c : N) : bool :=
  (0x30 <=? c) && (c <=? 0x39) || (0x61 <=? c) && (c <=? 0x66).

(** The characters of ASCII. *)
Definition is_ascii (c : N) : bool := c <? 0x80.

(** * Properties *)

Opaque py.

(** ** The monad *)

Section Monad.
Context {A B : Type}.

Lemma bind_Done (c : M A) (k : A -> M B) e m a m' :
  c e m = (Done a, m') -> bind c k e m = k a e m'.
Proof. intros H. unfold bind. now rewrite H. Qed.

Lemma bind_Abort (c : M A) (k : A -> M B) e m s m' :
  c e m = (Abort s, m') -> bind c k e m = (Abort s, m').
Proof. intros H. unfold bind. now rewrite H. Qed.

End Monad.

Lemma posts_app t1 t2 : posts (t1 ++ t2) = posts t1 ++ posts t2.
Proof. unfold posts. apply flat_map_app. Qed.

Lemma posts_reply_log e n rq : posts (reply_log e n rq) = [].
Proof. unfold reply_log. destruct (reply_outcome _) as [|[]]; reflexivity. Qed.

(** ** get_response, step by step *)

Lemma get_response_run self prompt max_tokens e m :
  let rq := completion_request self prompt max_tokens in
  let reply := net e (length (posts (trace m))) rq in
  get_response self prompt max_tokens e m
  = (Done (reply_text reply),
     Machine (session m)
       (trace m ++ Post rq :: reply_log e (length (posts (trace m))) rq)).
Proof.
  intros rq reply. subst reply rq.
  unfold get_response, requests_sent, str_exception, logger_error, emit, ret,
    try_except, bind, requests_post, reply_text, reply_log,
    reply_outcome, extract_text, completion_request, raise_for_status, response_json, lift,
    raise, getitem_str, getitem_int, method_strip.
  destruct (net e _ _) as [x | r]; simpl.
  { rewrite <- app_assoc. reflexivity. }
  destruct (_ && _)%bool; simpl.
  { rewrite <- app_assoc. reflexivity. }
  destruct (json_body r) as [body |]; simpl.
  2: { rewrite <- app_assoc. reflexivity. }
  repeat
    first
      [ reflexivity
      | rewrite <- app_assoc; reflexivity
      | match goal with
        | |- context [match ?x with _ => _ end] => is_var x; destruct x; simpl
        | |- context [match ?d !! ?k with _ => _ end] => destruct (d !! k); simpl
        end ].
Qed.

Lemma answer_business_question_run self question e m :
  let rq := completion_request self (question_prompt question) 300 in
  let reply := net e (length (posts (trace m))) rq in
  answer_business_question self question e m
  = (Done (reply_text reply),
     Machine (session m)
       (trace m ++ Post rq :: reply_log e (length (posts (trace m))) rq)).
Proof. apply get_response_run. Qed.

Lemma brainstorm_ideas_run self topic e m :
  let rq := completion_request self (topic_prompt topic) 400 in
  let reply := net e (length (posts (trace m))) rq in
  brainstorm_ideas self topic e m
  = (Done (reply_text reply),
     Machine (session m)
       (trace m ++ Post rq :: reply_log e (length (posts (trace m))) rq)).
Proof. apply get_response_run. Qed.

Lemma tab1_run chatbot inp e m :
  tab1 chatbot inp e m
  = (Done tt,
     Machine (session m)
       (trace m ++ tab1_events chatbot inp e (length (posts (trace m))))).
Proof.
  unfold tab1, tab1_events. run_step.
  destruct (in_get_answer inp); simpl; [| tidy].
  destruct (bool_decide _); simpl; [tidy |].
  rewrite answer_business_question_run. simpl.
  rewrite !posts_app. simpl. rewrite !app_nil_r. tidy.
Qed.

Lemma tab2_run chatbot inp e m :
  tab2 chatbot inp e m
  = (Done tt,
     Machine (session m)
       (trace m ++ tab2_events chatbot inp e (length (posts (trace m))))).
Proof.
  unfold tab2, tab2_events. run_step.
  destruct (in_generate_ideas inp); simpl; [| tidy].
  destruct (bool_decide _); simpl; [tidy |].
  rewrite brainstorm_ideas_run. simpl.
  rewrite !posts_app. simpl. rewrite !app_nil_r. tidy.
Qed.

Lemma render_run history e m :
  for_each history
    (fun turn => st (chat_message (fst turn));; st (write (snd turn))) e m
  = (Done tt, Machine (session m) (trace m ++ render history)).
Proof.
  revert m. induction history as [| turn history IH]; intros m; simpl.
  - rewrite app_nil_r. now destruct m.
  - run_step. unfold bind in IH. rewrite IH. simpl. tidy.
Qed.

Lemma posts_render history : posts (render history) = [].
Proof. induction history as [| turn history IH]; [reflexivity | exact IH]. Qed.

Lemma chat_interface_run chatbot inp e m li un history :
  session m = SessionState li un (Some history) ->
  let n := length (posts (trace m)) in
  chat_interface chatbot inp e m
  = (Done tt,
     Machine (SessionState li un (Some (chat_history_after chatbot inp history e n)))
       (trace m ++ chat_events chatbot inp history e n)).
Proof.
  intros Hs n. subst n. destruct m as [s t]. simpl in Hs. subst s.
  unfold chat_interface, chat_events, chat_history_after, chat_history_append,
    set_chat_history.
  run_step. rewrite render_run. simpl.
  destruct (truthy (in_chat inp)) as [user_input |]; simpl; [| tidy].
  rewrite answer_business_question_run. simpl.
  rewrite !posts_app, posts_render. simpl. rewrite !app_nil_r.
  tidy.
Qed.

Lemma BusinessChatbot_init_run e m :
  BusinessChatbot_init e m
  = match secrets e !! py "NVIDIA_API_KEY" with
    | Some k => (Done (client k), m)
    | None =>
        (Abort (fst (init_failure e)),
         Machine (session m) (trace m ++ snd (init_failure e)))
    end.
Proof.
  unfold BusinessChatbot_init, try_except, st_secrets, st_stop, logger_error,
    secrets, init_failure.
  run_step.
  destruct (secrets_source e) as [x | d]; simpl.
  - rewrite lookup_empty.
    destruct x; simpl; rewrite ?app_nil_r; try (destruct m; reflexivity); tidy.
  - destruct (d !! py "NVIDIA_API_KEY"); simpl; [reflexivity | tidy].
Qed.

Lemma posts_init_failure e : posts (snd (init_failure e)) = [].
Proof.
  unfold init_failure.
  destruct (secrets_source e) as [x | d]; [destruct (is_KeyError x) |]; reflexivity.
Qed.

Lemma init_session_state_run e m :
  init_session_state e m = (Done tt, Machine (initialised (session m)) (trace m)).
Proof.
  destruct m as [[li un h] t].
  unfold init_session_state, initialised, set_logged_in, set_username,
    set_chat_history.
  run_step.
  destruct li, un, h; reflexivity.
Qed.

(** The login form, by what [verify_password] answers. *)
Lemma login_form_run inp e m :
  login_form inp e m
  = if in_submit inp then
      match verify_password (in_username inp) (in_password inp) with
      | Done true =>
          (Abort Rerun,
           Machine (SessionState (Some true) (Some (in_username inp))
                      (chat_history (session m)))
             (trace m ++ login_widgets ++ [St (success (py "Logged in successfully!"))]))
      | Done false =>
          (Done tt,
           Machine (session m)
             (trace m ++ login_widgets ++ [St (error (py "Invalid username or password."))]))
      | Abort s => (Abort s, Machine (session m) (trace m ++ login_widgets))
      end
    else (Done tt, Machine (session m) (trace m ++ login_widgets)).
Proof.
  unfold login_form, login_widgets, set_logged_in, set_username,
    st_experimental_rerun.
  run_step.
  destruct (in_submit inp); simpl; [| tidy].
  destruct (verify_password _ _) as [[|] | s]; simpl; tidy.
Qed.

Lemma logout_button_run inp e m li user history :
  session m = SessionState li (Some user) history ->
  logout_button inp e m
  = if in_logout inp then
      (Abort Rerun, Machine cleared (trace m ++ sidebar_events user))
    else (Done tt, Machine (session m) (trace m ++ sidebar_events user)).
Proof.
  intros Hs. destruct m as [s t]. simpl in Hs. subst s.
  unfold logout_button, sidebar_events, set_logged_in, set_username,
    set_chat_history, st_experimental_rerun, cleared.
  run_step.
  destruct (in_logout inp); simpl; tidy.
Qed.

Lemma posts_sidebar_events user : posts (sidebar_events user) = [].
Proof. reflexivity. Qed.

(** ** One run of the script *)

(** Not logged in: the page top, then the login form. *)
Lemma run_logged_out e s inp :
  logged_in (initialised s) = Some false ->
  run e s inp = login_form inp e (Machine (initialised s) page_top).
Proof.
  intros Hl. unfold run, main, set_dark_mode_style. run_step.
  rewrite init_session_state_run. simpl.
  unfold initialised in *. simpl in *.
  injection Hl as Hl. rewrite Hl. reflexivity.
Qed.

(** Logged in: by the logout button, the API key and the three parts. *)
Lemma run_logged_in e s inp :
  logged_in (initialised s) = Some true ->
  let user := default [] (username s) in
  let history := default [] (chat_history s) in
  run e s inp
  = if in_logout inp then
      (Abort Rerun, Machine cleared (page_top ++ sidebar_events user))
    else
      match secrets e !! py "NVIDIA_API_KEY" with
      | None =>
          (Abort (fst (init_failure e)),
           Machine (initialised s)
             (page_top ++ sidebar_events user ++ snd (init_failure e)))
      | Some k =>
          let t1 := tab1_events (client k) inp e 0 in
          let t2 := tab2_events (client k) inp e (length (posts t1)) in
          let n := (length (posts t1) + length (posts t2))%nat in
          (Done tt,
           Machine (SessionState (Some true) (Some user)
                      (Some (chat_history_after (client k) inp history e n)))
             (page_top ++ sidebar_events user ++ [tabs_event]
              ++ body_events (client k) inp history e))
      end.
Proof.
  intros Hl user history. unfold run, main, set_dark_mode_style. run_step.
  rewrite init_session_state_run. simpl.
  unfold initialised in *. simpl in *.
  injection Hl as Hl. rewrite Hl. simpl.
  erewrite logout_button_run by reflexivity. cbn [app].
  fold user. fold history. change (_ :: _ :: _ :: sidebar_events user)
    with (page_top ++ sidebar_events user).
  destruct (in_logout inp); [reflexivity |].
  cbn [session trace]. rewrite BusinessChatbot_init_run.
  destruct (secrets e !! py "NVIDIA_API_KEY") as [k |].
  2: { cbn [session trace]. now rewrite <- app_assoc. }
  cbn [session trace]. fold tabs_event.
  rewrite tab1_run. cbn [session trace]. rewrite tab2_run. cbn [session trace].
  erewrite chat_interface_run by reflexivity. cbn [session trace].
  rewrite !posts_app, posts_sidebar_events, !length_app.
  cbn [posts page_top tabs_event flat_map app length Nat.add].
  unfold body_events. cbn zeta. now rewrite <- !app_assoc.
Qed.
Example sha_abc :
  SHA256.hexdigest [0x61; 0x62; 0x63]
  = py "ba7816bf8f01cfea414140de5dae2223b00361a396177a9cb410ff61f20015ad".
Proof. vm_compute. reflexivity. Qed.

Example sha_empty :
  SHA256.hexdigest []
  = py "e3b0c44298fc1c149afbf4c8996fb92427ae41e4649b934ca495991b7852b855".
Proof. vm_compute. reflexivity. Qed.

(** Two blocks: 56 bytes of input push the length into a second block. *)
Example sha_two_blocks :
  SHA256.hexdigest (py "abcdbcdecdefdefgefghfghighijhijkijkljklmklmnlmnomnopnopq")
  = py "248d6a61d20638b8e5c026930c3e6039a33ce45964ff2167f6ecedd419db06c1".
Proof. vm_compute. reflexivity. Qed.

Example encode_multibyte :
  encode [0xE9; 0x20AC; 0x1F600]
  = Some [0xC3; 0xA9; 0xE2; 0x82; 0xAC; 0xF0; 0x9F; 0x98; 0x80].
Proof. reflexivity. Qed.

(** ** User authentication *)

Lemma encode_char_encodable c :
  encodable_char c = true <-> exists b, encode_char c = Some b.
Proof.
  unfold encodable_char, encode_char.
  destruct (N.ltb_spec c 0x80), (N.ltb_spec c 0x800), (N.leb_spec 0xD800 c),
    (N.leb_spec c 0xDFFF), (N.ltb_spec c 0x10000), (N.ltb_spec c 0x110000),
    (N.ltb_spec c 0xD800), (N.ltb_spec 0xDFFF c);
    simpl; split; intros Hc; try lia; try discriminate; eauto;
    destruct Hc as [b Hc]; discriminate.
Qed.

Lemma encode_encodable s :
  encodable s = true <-> exists bytes, encode s = Some bytes.
Proof.
  induction s as [| c s IH]; simpl.
  - split; eauto.
  - rewrite andb_true_iff, IH, encode_char_encodable. split.
    + intros [[b Hb] [bs Hbs]]. rewrite Hb, Hbs. eauto.
    + intros [bytes H].
      destruct (encode_char c); [| discriminate].
      destruct (encode s); [| discriminate]. eauto.
Qed.

Lemma encode_not_encodable s : encodable s = false <-> encode s = None.
Proof.
  destruct (encodable s) eqn:E.
  - apply encode_encodable in E as [bytes E]. rewrite E. split; discriminate.
  - split; [intros _ | reflexivity].
    destruct (encode s) as [bytes |] eqn:E'; [| reflexivity].
    assert (encodable s = true) by (apply encode_encodable; eauto). congruence.
Qed.

(** The table the module builds: two users, the digests of their passwords. *)
Lemma users_table :
  users
  = <[py "user2" := py "6cf615d5bcaac778352a8f1f3360d23f02f34ec182e259897fd6ce485d7870d4"]>
      (<[py "Moin" := py "0a041b9462caa4a31bac3567e0b6e6fd9100787db2ab433d96f6d178cabfce90"]> ∅).
Proof. vm_compute. reflexivity. Qed.

Lemma users_literal_done : users_literal = Done users.
Proof. vm_compute. reflexivity. Qed.

Lemma users_registered username stored :
  users !! username = Some stored
  <-> (username = py "Moin" /\ sha256_hex (py "user1") = Done stored)
      \/ (username = py "user2" /\ sha256_hex (py "password2") = Done stored).
Proof.
  assert (H1 : sha256_hex (py "user1")
               = Done (py "0a041b9462caa4a31bac3567e0b6e6fd9100787db2ab433d96f6d178cabfce90"))
    by (vm_compute; reflexivity).
  assert (H2 : sha256_hex (py "password2")
               = Done (py "6cf615d5bcaac778352a8f1f3360d23f02f34ec182e259897fd6ce485d7870d4"))
    by (vm_compute; reflexivity).
  rewrite H1, H2, users_table, lookup_insert_Some, lookup_insert_Some, lookup_empty.
  split.
  - intros [[E1 E2] | [_ [[E1 E2] | [_ H]]]].
    + subst. right. split; reflexivity.
    + subst. left. split; reflexivity.
    + discriminate.
  - intros [[-> H] | [-> H]]; injection H as <-.
    + right. split; [intros E; vm_compute in E; discriminate |].
      left. split; reflexivity.
    + left. split; reflexivity.
Qed.

Lemma verify_password_unknown username password :
  users !! username = None -> verify_password username password = Done false.
Proof. intros H. unfold verify_password. rewrite H. reflexivity. Qed.

Lemma verify_password_known username password stored bytes :
  users !! username = Some stored ->
  encode password = Some bytes ->
  verify_password username password
  = Done (bool_decide (stored = SHA256.hexdigest bytes)).
Proof. intros H E. unfold verify_password, sha256_hex. rewrite H, E. reflexivity. Qed.

Lemma verify_password_unencodable username password stored :
  users !! username = Some stored ->
  encode password = None ->
  verify_password username password = Abort (Raise UnicodeEncodeError).
Proof. intros H E. unfold verify_password, sha256_hex. rewrite H, E. reflexivity. Qed.

Example verify_password_wrong_password :
  verify_password (py "Moin") (py "password2") = Done false
  /\ verify_password (py "Moin") [] = Done false
  /\ verify_password (py "moin") (py "user1") = Done false
  /\ verify_password [] [] = Done false.
Proof. vm_compute. repeat split. Qed.

(** A registered username with a password that holds a surrogate code
    point makes [verify_password] raise UnicodeEncodeError: a direct call
    with such a string returns neither true nor false. *)
Lemma verify_password_surrogate_raises :
  is_Some (users !! py "Moin")
  /\ verify_password (py "Moin") [0xD800] = Abort (Raise UnicodeEncodeError)
  /\ verify_password (py "Moin") [0xD800] <> Done true
  /\ verify_password (py "Moin") [0xD800] <> Done false.
Proof.
  assert (H : verify_password (py "Moin") [0xD800] = Abort (Raise UnicodeEncodeError))
    by (vm_compute; reflexivity).
  rewrite H. repeat split; try discriminate.
  destruct (users_registered (py "Moin")
              (py "0a041b9462caa4a31bac3567e0b6e6fd9100787db2ab433d96f6d178cabfce90"))
    as [_ Hr].
  eexists. apply Hr. left. split; [reflexivity | vm_compute; reflexivity].
Qed.

(** What [verify_password] computes: false for a username that is not a
    key of [users], whatever the password.  For a key and a password that
    UTF-8 can encode (no surrogate code point) it answers true exactly when
    the SHA-256 hex digest of the encoded password equals the stored digest;
    for a key and a password that cannot be encoded it raises
    UnicodeEncodeError.  The table holds Moin and user2 with the digests of
    user1 and password2, and both registered pairs are accepted.  Whether
    another string has the digest of a registered password is not settled
    here. *)
Theorem verify_password_spec (username password : pystr) :
  (users !! username = None -> verify_password username password = Done false)
  /\ (encodable password = true ->
      exists bytes,
        encode password = Some bytes
        /\ forall stored,
             users !! username = Some stored ->
             verify_password username password
             = Done (bool_decide (stored = SHA256.hexdigest bytes))
             /\ (verify_password username password = Done true
                 <-> SHA256.hexdigest bytes = stored))
  /\ (encodable password = false ->
      is_Some (users !! username) ->
      verify_password username password = Abort (Raise UnicodeEncodeError))
  /\ (forall stored,
        users !! username = Some stored
        <-> (username = py "Moin" /\ sha256_hex (py "user1") = Done stored)
            \/ (username = py "user2" /\ sha256_hex (py "password2") = Done stored))
  /\ verify_password (py "Moin") (py "user1") = Done true
  /\ verify_password (py "user2") (py "password2") = Done true.
Proof.
  split; [apply verify_password_unknown |].
  split.
  { intros He. apply encode_encodable in He as [bytes He].
    exists bytes. split; [exact He |]. intros stored Hs.
    rewrite (verify_password_known _ _ _ _ Hs He).
    split; [reflexivity |].
    split.
    - intros H. injection H as H. apply bool_decide_eq_true in H. congruence.
    - intros H. f_equal. apply bool_decide_eq_true. congruence. }
  split.
  { intros He [stored Hs]. apply encode_not_encodable in He.
    exact (verify_password_unencodable _ _ _ Hs He). }
  split; [intros stored; apply users_registered |].
  split; vm_compute; reflexivity.
Qed.

Lemma verify_password_spec_witness :
  verify_password (py "nobody") [0xD800] = Done false
  /\ verify_password (py "user2") (py "user1") = Done false
  /\ verify_password (py "user2") [0xDFFF] = Abort (Raise UnicodeEncodeError).
Proof.
  destruct (verify_password_spec (py "nobody") [0xD800]) as (H1 & _).
  destruct (verify_password_spec (py "user2") (py "user1")) as (_ & H2 & _).
  destruct (verify_password_spec (py "user2") [0xDFFF]) as (_ & _ & H3 & H4 & _).
  split; [apply H1; vm_compute; reflexivity |].
  split.
  - destruct H2 as (bytes & He & Hv); [vm_compute; reflexivity |].
    destruct (Hv (py "6cf615d5bcaac778352a8f1f3360d23f02f34ec182e259897fd6ce485d7870d4"))
      as [Hv' _]; [vm_compute; reflexivity |].
    rewrite Hv'. vm_compute in He. injection He as <-. vm_compute. reflexivity.
  - apply H3; [vm_compute; reflexivity |].
    eexists. apply H4. right. split; [reflexivity | vm_compute; reflexivity].
Defined.

(** C10: the stored digest of a registered user is not a password of that
    user: it is hashed again, and the digest of the digest differs. *)
Theorem stored_digest_rejected (username stored : pystr) :
  users !! username = Some stored ->
  verify_password username stored = Done false.
Proof.
  intros H. apply users_registered in H as [[-> H] | [-> H]];
    vm_compute in H; injection H as <-; vm_compute; reflexivity.
Qed.

Lemma stored_digest_rejected_witness :
  users !! py "Moin"
  = Some (py "0a041b9462caa4a31bac3567e0b6e6fd9100787db2ab433d96f6d178cabfce90")
  /\ verify_password (py "Moin")
       (py "0a041b9462caa4a31bac3567e0b6e6fd9100787db2ab433d96f6d178cabfce90")
     = Done false.
Proof.
  assert (H : users !! py "Moin"
              = Some (py "0a041b9462caa4a31bac3567e0b6e6fd9100787db2ab433d96f6d178cabfce90"))
    by (vm_compute; reflexivity).
  split; [exact H | exact (stored_digest_rejected _ _ H)].
Defined.

(** ** The completion client *)

Lemma extract_text_spec body :
  match choices0_text body with
  | Some t => extract_text body = Done (strip t)
  | None => exists x, extract_text body = Abort (Raise x)
  end.
Proof.
  unfold choices0_text, extract_text, getitem_str, getitem_int, method_strip.
  destruct body as [| | | | s | l | d]; simpl; eauto.
  destruct (d !! py "choices") as [choices |]; simpl; eauto.
  destruct choices as [| | | | s | l | d']; simpl; eauto.
  - destruct (s !! 0%nat); simpl; eauto.
  - destruct l as [| choice l]; simpl; eauto.
    destruct choice as [| | | | s | l' | c]; simpl; eauto.
    destruct (c !! py "text") as [text |]; simpl; eauto.
    destruct text; simpl; eauto.
Qed.

Lemma status_is_error r :
  ((400 <=? status_code r) && (status_code r <? 600))%Z = true
  <-> (400 <= status_code r < 600)%Z.
Proof. rewrite andb_true_iff, Z.leb_le, Z.ltb_lt. reflexivity. Qed.

Lemma reply_text_failed x : reply_text (Failed x) = fallback.
Proof. reflexivity. Qed.

Lemma reply_text_error_status r :
  (400 <= status_code r < 600)%Z -> reply_text (Responded r) = fallback.
Proof.
  intros H. apply status_is_error in H.
  unfold reply_text, reply_outcome. rewrite H. reflexivity.
Qed.

Lemma reply_text_not_json r :
  json_body r = None -> reply_text (Responded r) = fallback.
Proof.
  intros H. unfold reply_text, reply_outcome. rewrite H.
  destruct (_ && _)%bool; reflexivity.
Qed.

Lemma reply_text_no_field r body :
  json_body r = Some body -> choices0_text body = None ->
  reply_text (Responded r) = fallback.
Proof.
  intros H Hc. unfold reply_text, reply_outcome. rewrite H.
  destruct (_ && _)%bool; [reflexivity |].
  pose proof (extract_text_spec body) as He. rewrite Hc in He.
  destruct He as [x ->]. reflexivity.
Qed.

Lemma reply_text_ok r body t :
  ~ (400 <= status_code r < 600)%Z ->
  json_body r = Some body -> choices0_text body = Some t ->
  reply_text (Responded r) = strip t.
Proof.
  intros Hs H Hc. unfold reply_text, reply_outcome. rewrite H.
  destruct (_ && _)%bool eqn:E; [apply status_is_error in E; contradiction |].
  pose proof (extract_text_spec body) as He. rewrite Hc in He.
  rewrite He. reflexivity.
Qed.

Example get_response_hello_world :
  fst (get_response (client (py "secret")) (py "Hi") 200
         (Env with_key (answering 200)) (Machine moin_session []))
  = Done (py "Hello World").
Proof. vm_compute. reflexivity. Qed.

Example get_response_500_and_timeout :
  fst (get_response (client (py "secret")) (py "Hi") 200
         (Env with_key (answering 500)) (Machine moin_session []))
  = Done fallback
  /\ fst (get_response (client (py "secret")) (py "Hi") 200
            (Env with_key (fun _ _ => Failed ReadTimeout)) (Machine moin_session []))
     = Done fallback.
Proof. vm_compute. split; reflexivity. Qed.

(** C2, as stated, fails: a response with status 300 is not a 2xx response,
    yet [raise_for_status] lets it pass and the text of its body is
    returned instead of the fallback string. *)
Lemma get_response_status_300 :
  ~ (200 <= 300 < 300)%Z
  /\ fst (get_response (client (py "secret")) (py "Hi") 200
            (Env with_key (answering 300)) (Machine moin_session []))
     = Done (py "Hello World")
  /\ py "Hello World" <> fallback.
Proof.
  split; [lia |]. split; [vm_compute; reflexivity |].
  intros E. vm_compute in E. discriminate.
Qed.

(** C2 (amended): [get_response] sends one request, never raises and never
    retries.  It returns the fallback string when no response arrives, when
    the status is a client or server error (400 to 599), when the body is
    not JSON, and when [choices[0].text] is missing or is not a string.
    For any other status, 2xx or not, with a JSON body that has that field
    it returns the text with surrounding whitespace trimmed. *)
Theorem get_response_spec self prompt max_tokens e m :
  let rq := completion_request self prompt max_tokens in
  let reply := net e (length (posts (trace m))) rq in
  exists text log,
    get_response self prompt max_tokens e m
    = (Done text, Machine (session m) (trace m ++ Post rq :: log))
    /\ posts log = []
    /\ (forall x, reply = Failed x -> text = fallback)
    /\ (forall r, reply = Responded r ->
                  (400 <= status_code r < 600)%Z -> text = fallback)
    /\ (forall r, reply = Responded r -> json_body r = None -> text = fallback)
    /\ (forall r body, reply = Responded r -> json_body r = Some body ->
                       choices0_text body = None -> text = fallback)
    /\ (forall r body t, reply = Responded r ->
                         ~ (400 <= status_code r < 600)%Z ->
                         json_body r = Some body ->
                         choices0_text body = Some t -> text = strip t).
Proof.
  intros rq reply.
  exists (reply_text reply), (reply_log e (length (posts (trace m))) rq).
  split; [apply get_response_run |].
  split; [apply posts_reply_log |].
  split; [intros x -> ; apply reply_text_failed |].
  split; [intros r -> ; apply reply_text_error_status |].
  split; [intros r -> ; apply reply_text_not_json |].
  split; [intros r body -> ; apply reply_text_no_field |].
  intros r body t -> ; apply reply_text_ok.
Qed.

Lemma get_response_spec_witness :
  fst (get_response (client (py "secret")) (py "Hi") 200
         (Env with_key (answering 201)) (Machine moin_session []))
  = Done (strip (py "  Hello World  ")).
Proof.
  destruct (get_response_spec (client (py "secret")) (py "Hi") 200
              (Env with_key (answering 201)) (Machine moin_session []))
    as (text & log & Hrun & _ & _ & _ & _ & _ & Hok).
  rewrite Hrun. simpl. f_equal.
  apply (Hok (Response 201 (Some body_hello)) body_hello).
  - reflexivity.
  - simpl. lia.
  - reflexivity.
  - vm_compute. reflexivity.
Defined.

Lemma data_lookups prompt max_tokens :
  data prompt max_tokens !! py "model"
  = Some (PStr (py "nvidia/mistral-nemo-minitron-8b-base"))
  /\ data prompt max_tokens !! py "prompt" = Some (PStr prompt)
  /\ data prompt max_tokens !! py "temperature" = Some (PFloat 0.7)
  /\ data prompt max_tokens !! py "top_p" = Some (PFloat 0.95)
  /\ data prompt max_tokens !! py "max_tokens" = Some (PInt max_tokens)
  /\ data prompt max_tokens !! py "stream" = Some (PBool false).
Proof. repeat split; vm_compute; reflexivity. Qed.

Lemma data_dom prompt max_tokens :
  dom (data prompt max_tokens)
  = {[py "model"; py "prompt"; py "temperature"; py "top_p"; py "max_tokens";
      py "stream"]}.
Proof.
  unfold data. rewrite !dom_insert_L, dom_empty_L. set_solver.
Qed.

Lemma posts_get_response self prompt max_tokens e m :
  posts (trace (snd (get_response self prompt max_tokens e m)))
  = posts (trace m) ++ [completion_request self prompt max_tokens].
Proof.
  rewrite get_response_run. cbn [snd trace].
  rewrite posts_app. cbn [posts flat_map app].
  fold (posts (reply_log e (length (posts (trace m)))
                 (completion_request self prompt max_tokens))).
  rewrite posts_reply_log. reflexivity.
Qed.

(** C3: the request [get_response] sends goes to the base URL followed by
    /completions, and its JSON body has exactly the six keys model, prompt,
    temperature, top_p, max_tokens and stream, with the caller's prompt and
    max_tokens and the fixed model, 0.7, 0.95 and false. *)
Theorem request_body_exact self prompt max_tokens e m :
  exists rq,
    posts (trace (snd (get_response self prompt max_tokens e m)))
    = posts (trace m) ++ [rq]
    /\ rq_url rq = base_url self ++ py "/completions"
    /\ dom (rq_json rq)
       = {[py "model"; py "prompt"; py "temperature"; py "top_p";
           py "max_tokens"; py "stream"]}
    /\ rq_json rq !! py "model"
       = Some (PStr (py "nvidia/mistral-nemo-minitron-8b-base"))
    /\ rq_json rq !! py "prompt" = Some (PStr prompt)
    /\ rq_json rq !! py "temperature" = Some (PFloat 0.7)
    /\ rq_json rq !! py "top_p" = Some (PFloat 0.95)
    /\ rq_json rq !! py "max_tokens" = Some (PInt max_tokens)
    /\ rq_json rq !! py "stream" = Some (PBool false).
Proof.
  exists (completion_request self prompt max_tokens).
  split; [apply posts_get_response |].
  split; [reflexivity |].
  split; [apply data_dom |].
  exact (data_lookups prompt max_tokens).
Qed.

Lemma question_prompt_contains question :
  contains (question_prompt question) (py "Question: " ++ question).
Proof.
  unfold contains, question_prompt.
  exists (question_instruction ++ NL ++ NL), (NL ++ NL ++ py "Answer:").
  rewrite <- !app_assoc. reflexivity.
Qed.

Lemma topic_prompt_contains topic :
  contains (topic_prompt topic) (py "Topic: " ++ topic).
Proof.
  unfold contains, topic_prompt.
  exists (topic_instruction ++ NL ++ NL), (NL ++ NL ++ py "Ideas:").
  rewrite <- !app_assoc. reflexivity.
Qed.

Example question_prompt_roi :
  contains (question_prompt (py "What is ROI?")) (py "Question: What is ROI?")
  /\ contains (topic_prompt (py "coffee shop")) (py "Topic: coffee shop").
Proof.
  split.
  - apply (question_prompt_contains (py "What is ROI?")).
  - apply (topic_prompt_contains (py "coffee shop")).
Qed.

(** C4: [answer_business_question] hands [get_response] a prompt that holds
    the text Question: followed at once by the question, with max_tokens
    300; [brainstorm_ideas] a prompt that holds Topic: followed at once by
    the topic, with max_tokens 400.  The request sent carries that prompt
    and that max_tokens. *)
Theorem wrappers_prompt_and_max_tokens self e m :
  (forall question,
     answer_business_question self question
     = get_response self (question_prompt question) 300
     /\ contains (question_prompt question) (py "Question: " ++ question)
     /\ exists rq,
          posts (trace (snd (answer_business_question self question e m)))
          = posts (trace m) ++ [rq]
          /\ rq_json rq !! py "prompt" = Some (PStr (question_prompt question))
          /\ rq_json rq !! py "max_tokens" = Some (PInt 300))
  /\ (forall topic,
        brainstorm_ideas self topic = get_response self (topic_prompt topic) 400
        /\ contains (topic_prompt topic) (py "Topic: " ++ topic)
        /\ exists rq,
             posts (trace (snd (brainstorm_ideas self topic e m)))
             = posts (trace m) ++ [rq]
             /\ rq_json rq !! py "prompt" = Some (PStr (topic_prompt topic))
             /\ rq_json rq !! py "max_tokens" = Some (PInt 400)).
Proof.
  split.
  - intros question. split; [reflexivity |].
    split; [apply question_prompt_contains |].
    exists (completion_request self (question_prompt question) 300).
    split; [apply posts_get_response |].
    destruct (data_lookups (question_prompt question) 300)
      as (_ & Hprompt & _ & _ & Hmax & _).
    split; [exact Hprompt | exact Hmax].
  - intros topic. split; [reflexivity |].
    split; [apply topic_prompt_contains |].
    exists (completion_request self (topic_prompt topic) 400).
    split; [apply posts_get_response |].
    destruct (data_lookups (topic_prompt topic) 400)
      as (_ & Hprompt & _ & _ & Hmax & _).
    split; [exact Hprompt | exact Hmax].
Qed.

(** ** The requests of a run *)

Lemma posts_tab1_events chatbot inp e n :
  posts (tab1_events chatbot inp e n)
  = if in_get_answer inp && negb (bool_decide (strip (in_question inp) = []))
    then [completion_request chatbot (question_prompt (in_question inp)) 300]
    else [].
Proof.
  unfold tab1_events. rewrite posts_app.
  destruct (in_get_answer inp); [| reflexivity].
  destruct (bool_decide _); [reflexivity |].
  cbn [andb negb posts flat_map app].
  fold (posts (reply_log e n (completion_request chatbot
    (question_prompt (in_question inp)) 300) ++
    [St (success (py "Here's your answer:"));
     St (write (reply_text (net e n (completion_request chatbot
       (question_prompt (in_question inp)) 300))))])).
  rewrite posts_app, posts_reply_log. reflexivity.
Qed.

Lemma posts_tab2_events chatbot inp e n :
  posts (tab2_events chatbot inp e n)
  = if in_generate_ideas inp && negb (bool_decide (strip (in_topic inp) = []))
    then [completion_request chatbot (topic_prompt (in_topic inp)) 400]
    else [].
Proof.
  unfold tab2_events. rewrite posts_app.
  destruct (in_generate_ideas inp); [| reflexivity].
  destruct (bool_decide _); [reflexivity |].
  cbn [andb negb posts flat_map app].
  fold (posts (reply_log e n (completion_request chatbot
    (topic_prompt (in_topic inp)) 400) ++
    [St (success (py "Here are some innovative ideas:"));
     St (write (reply_text (net e n (completion_request chatbot
       (topic_prompt (in_topic inp)) 400))))])).
  rewrite posts_app, posts_reply_log. reflexivity.
Qed.

Lemma posts_chat_events chatbot inp history e n :
  posts (chat_events chatbot inp history e n)
  = match truthy (in_chat inp) with
    | Some user_input =>
        [completion_request chatbot (question_prompt user_input) 300]
    | None => []
    end.
Proof.
  unfold chat_events. rewrite !posts_app, posts_render.
  destruct (truthy (in_chat inp)) as [user_input |]; [| reflexivity].
  rewrite !posts_app, posts_reply_log. reflexivity.
Qed.

Lemma posts_body_events chatbot inp history e :
  posts (body_events chatbot inp history e)
  = posts (tab1_events chatbot inp e 0)
    ++ posts (tab2_events chatbot inp e (length (posts (tab1_events chatbot inp e 0))))
    ++ match truthy (in_chat inp) with
       | Some user_input =>
           [completion_request chatbot (question_prompt user_input) 300]
       | None => []
       end.
Proof.
  unfold body_events. cbn zeta.
  rewrite !posts_app, posts_chat_events. reflexivity.
Qed.

Lemma login_form_posts inp e m :
  posts (trace (snd (login_form inp e m))) = posts (trace m).
Proof.
  rewrite login_form_run.
  destruct (in_submit inp); [destruct (verify_password _ _) as [[|] |] |];
    cbn [snd trace]; rewrite !posts_app; cbn [posts login_widgets flat_map app];
    now rewrite app_nil_r.
Qed.

Lemma logged_in_initialised s :
  logged_in (initialised s) = Some true \/ logged_in (initialised s) = Some false.
Proof. unfold initialised. cbn [logged_in]. destruct (default false _); auto. Qed.

(** The requests of a run, when the user is logged in, does not log out and
    the key is configured. *)
Lemma posts_run_logged_in e s inp k :
  logged_in (initialised s) = Some true ->
  in_logout inp = false ->
  secrets e !! py "NVIDIA_API_KEY" = Some k ->
  run_trace e s inp
  = page_top ++ sidebar_events (default [] (username s)) ++ [tabs_event]
    ++ body_events (client k) inp (default [] (chat_history s)) e
  /\ posts (run_trace e s inp)
     = posts (body_events (client k) inp (default [] (chat_history s)) e).
Proof.
  intros Hl Ho Hk. unfold run_trace.
  rewrite (run_logged_in e s inp Hl), Ho, Hk. cbn [snd trace].
  split; [reflexivity |].
  rewrite !posts_app, posts_sidebar_events. reflexivity.
Qed.

Lemma truthy_Some v user_input :
  truthy v = Some user_input <-> v = Some user_input /\ user_input <> [].
Proof.
  destruct v as [[| c t] |]; simpl.
  - split; [discriminate |]. intros [H Hn]. injection H as <-. congruence.
  - split.
    + intros H. injection H as <-. split; [reflexivity | discriminate].
    + intros [H _]. exact H.
  - split; [discriminate |]. intros [H _]. discriminate.
Qed.

Lemma truthy_None v : truthy v = None <-> v = None \/ v = Some [].
Proof.
  destruct v as [[| c t] |]; simpl; split; auto; try discriminate.
  intros [H | H]; discriminate.
Qed.

(** ** Missing API key *)

(** When the secrets load and lack the key, the constructor logs an error,
    shows an error message and stops the script; no run sends a request, and
    a run of a logged-in session stops at the constructor with the store as
    it was. *)
Lemma missing_api_key_halts e d :
  secrets_source e = Secrets d ->
  d !! py "NVIDIA_API_KEY" = None ->
  (forall m,
     BusinessChatbot_init e m
     = (Abort Stop,
        Machine (session m)
          (trace m
           ++ [LogError (py "NVIDIA_API_KEY not found in Streamlit secrets.") None;
               St (error (py "Server configuration error. Please contact the administrator."))])))
  /\ (forall s inp, posts (run_trace e s inp) = [])
  /\ (forall s inp,
        logged_in (initialised s) = Some true -> in_logout inp = false ->
        fst (run e s inp) = Abort Stop /\ next_session e s inp = initialised s).
Proof.
  intros Hs Hd.
  assert (Hk : secrets e !! py "NVIDIA_API_KEY" = None)
    by (unfold secrets; rewrite Hs; exact Hd).
  assert (Hf : init_failure e = (Stop, missing_key_events))
    by (unfold init_failure; rewrite Hs; reflexivity).
  split; [| split].
  - intros m. rewrite BusinessChatbot_init_run, Hk, Hf. reflexivity.
  - intros s inp. unfold run_trace.
    destruct (logged_in_initialised s) as [Hl | Hl].
    + rewrite (run_logged_in e s inp Hl), Hk, Hf.
      destruct (in_logout inp); cbn [snd trace];
        rewrite !posts_app, posts_sidebar_events; reflexivity.
    + rewrite (run_logged_out e s inp Hl), login_form_posts. reflexivity.
  - intros s inp Hl Ho. unfold next_session.
    rewrite (run_logged_in e s inp Hl), Ho, Hk, Hf. split; reflexivity.
Qed.

Lemma missing_api_key_halts_witness :
  posts (run_trace (Env ∅ (answering 200)) moin_session (chatting (py "Hello"))) = []
  /\ fst (run (Env ∅ (answering 200)) moin_session (chatting (py "Hello")))
     = Abort Stop.
Proof.
  destruct (missing_api_key_halts (Env ∅ (answering 200)) ∅) as (_ & Hp & Hs).
  - reflexivity.
  - reflexivity.
  - split; [apply Hp |].
    apply (Hs moin_session (chatting (py "Hello"))); reflexivity.
Defined.

(** C6: the constructor catches KeyError only.  When the secrets cannot be
    loaded (no secrets file), the exception of [st.secrets] is no KeyError
    and escapes the constructor: no error is logged, no error message is
    shown, [st.stop] is not called, and a run of a logged-in session ends
    with that exception.  No request is sent in that case either. *)
Theorem missing_secrets_file_escapes e x :
  secrets_source e = NoSecrets x ->
  is_KeyError x = false ->
  (forall m, BusinessChatbot_init e m = (Abort (Raise x), m))
  /\ (forall s inp,
        logged_in (initialised s) = Some true -> in_logout inp = false ->
        run e s inp
        = (Abort (Raise x),
           Machine (initialised s)
             (page_top
              ++ [St (sidebar_header
                        (py "Welcome, " ++ default [] (username s) ++ py "!"));
                  St (sidebar_button (py "Logout"))])))
  /\ (forall s inp, posts (run_trace e s inp) = []).
Proof.
  intros Hs Hx.
  assert (Hk : secrets e !! py "NVIDIA_API_KEY" = None)
    by (unfold secrets; rewrite Hs; apply lookup_empty).
  assert (Hf : init_failure e = (Raise x, []))
    by (unfold init_failure; rewrite Hs, Hx; reflexivity).
  split; [| split].
  - intros m. rewrite BusinessChatbot_init_run, Hk, Hf. cbn [fst snd].
    rewrite app_nil_r. destruct m; reflexivity.
  - intros s inp Hl Ho.
    rewrite (run_logged_in e s inp Hl), Ho, Hk, Hf. cbn [fst snd].
    rewrite app_nil_r. reflexivity.
  - intros s inp. unfold run_trace.
    destruct (logged_in_initialised s) as [Hl | Hl].
    + rewrite (run_logged_in e s inp Hl), Hk, Hf.
      destruct (in_logout inp); cbn [snd trace];
        rewrite !posts_app, posts_sidebar_events; reflexivity.
    + rewrite (run_logged_out e s inp Hl), login_form_posts. reflexivity.
Qed.

Lemma missing_secrets_file_escapes_witness :
  fst (run (without_secrets_file offline) moin_session (chatting (py "Hello")))
  = Abort (Raise FileNotFoundError)
  /\ errors (run_trace (without_secrets_file offline) moin_session
               (chatting (py "Hello"))) = []
  /\ posts (run_trace (without_secrets_file offline) moin_session
              (chatting (py "Hello"))) = [].
Proof.
  destruct (missing_secrets_file_escapes (without_secrets_file offline)
              FileNotFoundError)
    as (_ & Hrun & Hp).
  - reflexivity.
  - reflexivity.
  - unfold run_trace.
    rewrite (Hrun moin_session (chatting (py "Hello"))) by reflexivity.
    split; [reflexivity |]. split; [reflexivity |].
    exact (Hp moin_session (chatting (py "Hello"))).
Defined.

(** ** Chat turns *)

(** C5, as stated, fails: the request of a chat turn asks for 300 tokens,
    the value [answer_business_question] passes, not for the default 200. *)
Lemma chat_turn_asks_300 :
  map (fun rq => rq_json rq !! py "max_tokens")
    (posts (run_trace (Env with_key offline) moin_session
              (chatting (py "What is ROI?"))))
  = [Some (PInt 300)]
  /\ PInt 300 <> PInt default_max_tokens.
Proof. split; [vm_compute; reflexivity | discriminate]. Qed.

(** C5 (amended): the request of a chat turn is the last one of the run;
    its prompt is the Business Q&A prompt built from the chat input, and its
    max_tokens is 300. *)
Theorem chat_turn_request e s inp k user_input :
  logged_in (initialised s) = Some true ->
  in_logout inp = false ->
  secrets e !! py "NVIDIA_API_KEY" = Some k ->
  in_chat inp = Some user_input ->
  user_input <> [] ->
  exists earlier rq,
    posts (run_trace e s inp) = earlier ++ [rq]
    /\ rq = completion_request (client k) (question_prompt user_input) 300
    /\ rq_json rq !! py "prompt" = Some (PStr (question_prompt user_input))
    /\ contains (question_prompt user_input) (py "Question: " ++ user_input)
    /\ rq_json rq !! py "max_tokens" = Some (PInt 300).
Proof.
  intros Hl Ho Hk Hc Hn.
  assert (Ht : truthy (in_chat inp) = Some user_input)
    by (apply truthy_Some; split; assumption).
  destruct (posts_run_logged_in e s inp k Hl Ho Hk) as [_ Hp].
  rewrite Hp, posts_body_events, Ht.
  eexists (_ ++ _), _. split; [rewrite app_assoc; reflexivity |].
  split; [reflexivity |].
  destruct (data_lookups (question_prompt user_input) 300)
    as (_ & Hprompt & _ & _ & Hmax & _).
  split; [exact Hprompt |].
  split; [apply question_prompt_contains | exact Hmax].
Qed.

Lemma chat_turn_request_witness :
  exists earlier rq,
    posts (run_trace (Env with_key offline) moin_session (chatting (py "What is ROI?")))
    = earlier ++ [rq]
    /\ rq_json rq !! py "max_tokens" = Some (PInt 300).
Proof.
  destruct (chat_turn_request (Env with_key offline) moin_session
              (chatting (py "What is ROI?")) (py "secret") (py "What is ROI?"))
    as (earlier & rq & Hp & _ & _ & _ & Hmax).
  - reflexivity.
  - reflexivity.
  - vm_compute. reflexivity.
  - reflexivity.
  - intros E. vm_compute in E. discriminate.
  - exists earlier, rq. split; [exact Hp | exact Hmax].
Defined.

(** ** Blank inputs *)

Lemma tab1_blank chatbot inp e m :
  in_get_answer inp = true -> strip (in_question inp) = [] ->
  tab1 chatbot inp e m
  = (Done tt,
     Machine (session m)
       (trace m
        ++ [St (header (py "Ask a Business Question"));
            St (text_area (py "Enter your business-related question:"));
            St (button (py "Get Answer"));
            St (error (py "Please enter a valid question."))])).
Proof.
  intros Hp Hb. rewrite tab1_run. unfold tab1_events.
  rewrite Hp, Hb. reflexivity.
Qed.

Lemma tab2_blank chatbot inp e m :
  in_generate_ideas inp = true -> strip (in_topic inp) = [] ->
  tab2 chatbot inp e m
  = (Done tt,
     Machine (session m)
       (trace m
        ++ [St (header (py "Business Idea Brainstorming"));
            St (text_input (py "Enter a business topic for brainstorming:"));
            St (button (py "Generate Ideas"));
            St (error (py "Please enter a valid topic."))])).
Proof.
  intros Hp Hb. rewrite tab2_run. unfold tab2_events.
  rewrite Hp, Hb. reflexivity.
Qed.

Lemma chat_interface_nothing_sent chatbot inp e m li un history :
  session m = SessionState li un (Some history) ->
  in_chat inp = None \/ in_chat inp = Some [] ->
  chat_interface chatbot inp e m
  = (Done tt,
     Machine (session m)
       (trace m
        ++ [St (header ([0x1F4AC] ++ py " Chat with Business AI"))]
        ++ render history
        ++ [St (chat_input (py "Ask me anything about business:"))])).
Proof.
  intros Hs Hc. apply truthy_None in Hc.
  rewrite (chat_interface_run chatbot inp e m li un history Hs).
  unfold chat_history_after, chat_events. rewrite Hc, Hs, app_nil_r.
  reflexivity.
Qed.

(** C7, as stated, fails for the chat input: a chat input of spaces is
    blank, and a request is sent for it; an empty chat input sends
    nothing, and no error message is shown for it. *)
Lemma blank_chat_input_is_sent :
  strip (py "   ") = []
  /\ length (posts (run_trace (Env with_key offline) moin_session
                      (chatting (py "   ")))) = 1%nat
  /\ errors (run_trace (Env with_key offline) moin_session (chatting [])) = [].
Proof. repeat split; vm_compute; reflexivity. Qed.

(** C7 (amended): a pressed Get Answer with a blank question, and a pressed
    Generate Ideas with a blank topic, show an error message and send no
    request.  An absent or empty chat input sends no request and shows no
    message.  A run in which every pressed button has a blank input and the
    chat input is absent or empty sends no request, leaves the store as it
    was and ends normally, with the page drawn again. *)
Theorem blank_inputs_rejected chatbot inp e m :
  (in_get_answer inp = true -> strip (in_question inp) = [] ->
   tab1 chatbot inp e m
   = (Done tt,
      Machine (session m)
        (trace m
         ++ [St (header (py "Ask a Business Question"));
             St (text_area (py "Enter your business-related question:"));
             St (button (py "Get Answer"));
             St (error (py "Please enter a valid question."))])))
  /\ (in_generate_ideas inp = true -> strip (in_topic inp) = [] ->
      tab2 chatbot inp e m
      = (Done tt,
         Machine (session m)
           (trace m
            ++ [St (header (py "Business Idea Brainstorming"));
                St (text_input (py "Enter a business topic for brainstorming:"));
                St (button (py "Generate Ideas"));
                St (error (py "Please enter a valid topic."))])))
  /\ (forall li un history,
        session m = SessionState li un (Some history) ->
        in_chat inp = None \/ in_chat inp = Some [] ->
        chat_interface chatbot inp e m
        = (Done tt,
           Machine (session m)
             (trace m
              ++ [St (header ([0x1F4AC] ++ py " Chat with Business AI"))]
              ++ render history
              ++ [St (chat_input (py "Ask me anything about business:"))])))
  /\ (forall s k,
        logged_in (initialised s) = Some true ->
        in_logout inp = false ->
        secrets e !! py "NVIDIA_API_KEY" = Some k ->
        (in_get_answer inp = true -> strip (in_question inp) = []) ->
        (in_generate_ideas inp = true -> strip (in_topic inp) = []) ->
        in_chat inp = None \/ in_chat inp = Some [] ->
        posts (run_trace e s inp) = []
        /\ fst (run e s inp) = Done tt
        /\ next_session e s inp = initialised s).
Proof.
  split; [apply tab1_blank |].
  split; [apply tab2_blank |].
  split; [intros li un history; apply chat_interface_nothing_sent |].
  intros s k Hl Ho Hk Hq Ht Hc. apply truthy_None in Hc.
  destruct (posts_run_logged_in e s inp k Hl Ho Hk) as [_ Hp].
  split.
  - rewrite Hp, posts_body_events, posts_tab1_events, posts_tab2_events, Hc.
    destruct (in_get_answer inp); [rewrite Hq by reflexivity |];
      (destruct (in_generate_ideas inp); [rewrite Ht by reflexivity |]);
      reflexivity.
  - unfold next_session. rewrite (run_logged_in e s inp Hl), Ho, Hk.
    cbn [fst snd session]. split; [reflexivity |].
    unfold chat_history_after. rewrite Hc.
    unfold initialised in *. cbn [logged_in] in Hl. rewrite Hl. reflexivity.
Qed.

Lemma blank_inputs_rejected_witness :
  posts (run_trace (Env with_key (answering 200)) moin_session
           (Inputs [] [] false false (py "  ") true [0x3000] true (Some [])))
  = [].
Proof.
  destruct (blank_inputs_rejected (client (py "secret"))
              (Inputs [] [] false false (py "  ") true [0x3000] true (Some []))
              (Env with_key (answering 200)) (Machine moin_session []))
    as (_ & _ & _ & Hrun).
  apply (Hrun moin_session (py "secret")).
  - reflexivity.
  - reflexivity.
  - vm_compute. reflexivity.
  - intros _. vm_compute. reflexivity.
  - intros _. vm_compute. reflexivity.
  - right. reflexivity.
Defined.

(** ** The session store from run to run *)

(** What a run does to the store. *)
Lemma next_session_cases e s inp :
  let s0 := initialised s in
  let history := default [] (chat_history s) in
  next_session e s inp = s0
  \/ (logged_in s0 = Some false
      /\ in_submit inp = true
      /\ verify_password (in_username inp) (in_password inp) = Done true
      /\ next_session e s inp
         = SessionState (Some true) (Some (in_username inp)) (Some history))
  \/ (logged_in s0 = Some true /\ in_logout inp = true
      /\ next_session e s inp = cleared)
  \/ (logged_in s0 = Some true /\ in_logout inp = false
      /\ exists user_input k n,
           in_chat inp = Some user_input /\ user_input <> []
           /\ secrets e !! py "NVIDIA_API_KEY" = Some k
           /\ next_session e s inp
              = SessionState (Some true) (username s0)
                  (Some (history ++ [(py "user", user_input);
                                     (py "assistant", answer_of e k n user_input)]))).
Proof.
  intros s0 history. unfold next_session.
  destruct (logged_in_initialised s) as [Hl | Hl].
  - rewrite (run_logged_in e s inp Hl).
    destruct (in_logout inp) eqn:Ho.
    { right. right. left. repeat split; assumption. }
    destruct (secrets e !! py "NVIDIA_API_KEY") as [k |] eqn:Hk;
      [| left; reflexivity].
    cbn [snd session]. unfold chat_history_after.
    destruct (truthy (in_chat inp)) as [user_input |] eqn:Ht.
    + right. right. right. apply truthy_Some in Ht as [Hc Hn].
      split; [exact Hl |]. split; [reflexivity |].
      eexists user_input, k, _. split; [exact Hc |]. split; [exact Hn |].
      split; reflexivity.
    + left. subst s0. unfold initialised in *. cbn [logged_in] in Hl.
      rewrite Hl. reflexivity.
  - rewrite (run_logged_out e s inp Hl), login_form_run.
    destruct (in_submit inp) eqn:Hsub; [| left; reflexivity].
    destruct (verify_password _ _) as [[|] | sg] eqn:Hv;
      [| left; reflexivity | left; reflexivity].
    right. left. repeat split; try assumption.
Qed.

Lemma reachable_ok s : reachable s -> session_ok s.
Proof.
  induction 1 as [| e s inp Hr IH].
  - left. reflexivity.
  - destruct (next_session_cases e s inp)
      as [Hn | [(Hl & _ & _ & Hn) | [(_ & _ & Hn) | (Hl & _ & u & k & n & _ & _ & _ & Hn)]]];
      rewrite Hn; clear Hn.
    + destruct IH as [-> | [-> | (user & history & -> & Ha)]].
      * right. left. reflexivity.
      * right. left. reflexivity.
      * right. right. exists user, history. split; [reflexivity | exact Ha].
    + right. right.
      destruct IH as [-> | [-> | (user & history & -> & Ha)]];
        try discriminate Hl; eexists _, _; (split; [reflexivity | constructor]).
    + right. left. reflexivity.
    + right. right.
      destruct IH as [-> | [-> | (user & history & -> & Ha)]];
        try discriminate Hl.
      eexists _, _. split; [reflexivity |]. cbn [chat_history default id].
      apply alt_snoc. exact Ha.
Qed.

Lemma length_posts_tab1 chatbot inp e n :
  length (posts (tab1_events chatbot inp e n))
  = if in_get_answer inp && negb (bool_decide (strip (in_question inp) = []))
    then 1%nat else 0%nat.
Proof. rewrite posts_tab1_events. destruct (_ && _)%bool; reflexivity. Qed.

Lemma length_posts_tab2 chatbot inp e n :
  length (posts (tab2_events chatbot inp e n))
  = if in_generate_ideas inp && negb (bool_decide (strip (in_topic inp) = []))
    then 1%nat else 0%nat.
Proof. rewrite posts_tab2_events. destruct (_ && _)%bool; reflexivity. Qed.

(** C8: in every store a browser session reaches, the transcript alternates
    user and assistant turns.  A run leaves the transcript as it was, or
    appends the user turn of the chat input and then the assistant turn
    with the text returned for that input, or, on logout, empties it;
    nothing else changes it.  Every chat submission that the chat interface
    handles appends exactly these two turns, in this order, at the end; a
    run without chat input and without logout leaves the transcript as it
    was.  A logout leaves an empty transcript, a run of a logged-out
    session does not touch it, and the login that follows a logout starts
    with an empty transcript. *)
Theorem chat_history_alternates_and_grows :
  (forall s, reachable s ->
     exists history,
       chat_history (initialised s) = Some history /\ alternating history)
  /\ (forall e s inp,
        let history := default [] (chat_history s) in
        exists history',
          chat_history (next_session e s inp) = Some history'
          /\ (history' = history
              \/ (exists user_input k n,
                    in_chat inp = Some user_input
                    /\ secrets e !! py "NVIDIA_API_KEY" = Some k
                    /\ history'
                       = history ++ [(py "user", user_input);
                                     (py "assistant", answer_of e k n user_input)])
              \/ (history' = []
                  /\ logged_in (initialised s) = Some true
                  /\ in_logout inp = true)))
  /\ (forall e s inp k user_input,
        logged_in (initialised s) = Some true ->
        in_logout inp = false ->
        secrets e !! py "NVIDIA_API_KEY" = Some k ->
        in_chat inp = Some user_input ->
        user_input <> [] ->
        let n :=
          ((if in_get_answer inp
               && negb (bool_decide (strip (in_question inp) = []))
            then 1 else 0)
           + (if in_generate_ideas inp
                 && negb (bool_decide (strip (in_topic inp) = []))
              then 1 else 0))%nat in
        chat_history (next_session e s inp)
        = Some (default [] (chat_history s)
                ++ [(py "user", user_input);
                    (py "assistant", answer_of e k n user_input)]))
  /\ (forall e s inp,
        in_logout inp = false ->
        in_chat inp = None \/ in_chat inp = Some [] ->
        chat_history (next_session e s inp)
        = Some (default [] (chat_history s)))
  /\ (forall e s inp,
        logged_in (initialised s) = Some true -> in_logout inp = true ->
        next_session e s inp = cleared)
  /\ (forall e s inp,
        logged_in (initialised s) = Some false ->
        chat_history (next_session e s inp) = chat_history (initialised s))
  /\ (forall e1 e2 s inp1 inp2,
        logged_in (initialised s) = Some true -> in_logout inp1 = true ->
        in_submit inp2 = true ->
        verify_password (in_username inp2) (in_password inp2) = Done true ->
        next_session e2 (next_session e1 s inp1) inp2
        = SessionState (Some true) (Some (in_username inp2)) (Some [])).
Proof.
  assert (Hlogout : forall e s inp,
            logged_in (initialised s) = Some true -> in_logout inp = true ->
            next_session e s inp = cleared).
  { intros e s inp Hl Ho. unfold next_session.
    rewrite (run_logged_in e s inp Hl), Ho. reflexivity. }
  assert (Hlogin : forall e s inp,
            logged_in (initialised s) = Some false ->
            chat_history (next_session e s inp) = chat_history (initialised s)).
  { intros e s inp Hl. unfold next_session.
    rewrite (run_logged_out e s inp Hl), login_form_run.
    destruct (in_submit inp); [| reflexivity].
    destruct (verify_password _ _) as [[|] |]; reflexivity. }
  split; [| split; [| split; [| split; [| split; [exact Hlogout | split; [exact Hlogin |]]]]]].
  - intros s Hr.
    destruct (reachable_ok s Hr) as [-> | [-> | (user & history & -> & Ha)]].
    + exists []. split; [reflexivity | constructor].
    + exists []. split; [reflexivity | constructor].
    + exists history. split; [reflexivity | exact Ha].
  - intros e s inp history.
    destruct (next_session_cases e s inp)
      as [Hn | [(_ & _ & _ & Hn) | [(Hl & Ho & Hn) | (_ & _ & u & k & n & Hc & _ & Hk & Hn)]]];
      rewrite Hn; clear Hn.
    + exists history. split; [reflexivity | left; reflexivity].
    + exists history. split; [reflexivity | left; reflexivity].
    + exists []. split; [reflexivity |]. right. right. repeat split; assumption.
    + eexists. split; [reflexivity |]. right. left.
      exists u, k, n. split; [exact Hc |]. split; [exact Hk | reflexivity].
  - intros e s inp k u Hl Ho Hk Hc Hn n.
    assert (Ht : truthy (in_chat inp) = Some u)
      by (apply truthy_Some; split; assumption).
    unfold next_session. rewrite (run_logged_in e s inp Hl), Ho, Hk.
    cbn [snd session chat_history]. unfold chat_history_after. rewrite Ht.
    rewrite length_posts_tab1, length_posts_tab2. reflexivity.
  - intros e s inp Ho Hc. apply truthy_None in Hc.
    destruct (logged_in_initialised s) as [Hl | Hl].
    + unfold next_session. rewrite (run_logged_in e s inp Hl), Ho.
      destruct (secrets e !! py "NVIDIA_API_KEY"); cbn [snd session chat_history].
      * unfold chat_history_after. rewrite Hc. reflexivity.
      * reflexivity.
    + rewrite (Hlogin e s inp Hl). reflexivity.
  - intros e1 e2 s inp1 inp2 Hl Ho Hsub Hv.
    rewrite (Hlogout e1 s inp1 Hl Ho). unfold next_session.
    rewrite (run_logged_out e2 cleared inp2) by reflexivity.
    rewrite login_form_run, Hsub, Hv. reflexivity.
Qed.

Lemma chat_history_alternates_and_grows_witness :
  chat_history (next_session (Env with_key (answering 200)) moin_session
                  (Inputs [] [] false false (py "Why?") true [] false
                     (Some (py "Hello"))))
  = Some [(py "user", py "Hello");
          (py "assistant",
           answer_of (Env with_key (answering 200)) (py "secret") 1 (py "Hello"))]
  /\ next_session (Env with_key offline)
       (next_session (Env with_key (answering 200))
          (next_session (Env with_key (answering 200)) moin_session
             (chatting (py "Hello")))
          (Inputs [] [] false true [] false [] false None))
       (Inputs (py "user2") (py "password2") true false [] false [] false None)
     = SessionState (Some true) (Some (py "user2")) (Some []).
Proof.
  destruct chat_history_alternates_and_grows as (_ & _ & Happend & _ & _ & _ & H).
  split.
  - apply (Happend (Env with_key (answering 200)) moin_session
             (Inputs [] [] false false (py "Why?") true [] false (Some (py "Hello")))
             (py "secret") (py "Hello")).
    + reflexivity.
    + reflexivity.
    + vm_compute. reflexivity.
    + reflexivity.
    + intros E. vm_compute in E. discriminate.
  - apply (H (Env with_key (answering 200)) (Env with_key offline)
             (next_session (Env with_key (answering 200)) moin_session
                (chatting (py "Hello")))
             (Inputs [] [] false true [] false [] false None)
             (Inputs (py "user2") (py "password2") true false [] false [] false None)).
    + vm_compute. reflexivity.
    + reflexivity.
    + reflexivity.
    + vm_compute. reflexivity.
Defined.

Example chat_turn_appends_two :
  chat_history (next_session (Env with_key (answering 200)) moin_session
                  (chatting (py "Hello")))
  = Some [(py "user", py "Hello"); (py "assistant", py "Hello World")].
Proof. vm_compute. reflexivity. Qed.

(** ** Failed login *)

(** C9: a login attempt that [verify_password] rejects leaves the store as
    it was: not logged in, the empty username, the transcript untouched.
    The run draws the page top and the login form, then the error message,
    sends no request and ends normally. *)
Theorem failed_login_changes_nothing e s inp :
  reachable s ->
  logged_in (initialised s) = Some false ->
  in_submit inp = true ->
  verify_password (in_username inp) (in_password inp) = Done false ->
  next_session e s inp = initialised s
  /\ (logged_in s = Some false -> next_session e s inp = s)
  /\ logged_in (next_session e s inp) = Some false
  /\ username (next_session e s inp) = Some []
  /\ chat_history (next_session e s inp) = chat_history (initialised s)
  /\ run_trace e s inp
     = page_top ++ login_widgets
       ++ [St (error (py "Invalid username or password."))]
  /\ posts (run_trace e s inp) = []
  /\ fst (run e s inp) = Done tt.
Proof.
  intros Hr Hl Hsub Hv.
  assert (Hrun : run e s inp
                 = (Done tt,
                    Machine (initialised s)
                      (page_top ++ login_widgets
                       ++ [St (error (py "Invalid username or password."))]))).
  { rewrite (run_logged_out e s inp Hl), login_form_run, Hsub, Hv. reflexivity. }
  unfold next_session, run_trace. rewrite Hrun. cbn [fst snd session trace].
  split; [reflexivity |].
  destruct (reachable_ok s Hr) as [-> | [-> | (user & history & -> & Ha)]];
    try discriminate Hl.
  - repeat split. intros H. discriminate H.
  - repeat split.
Qed.

Lemma failed_login_changes_nothing_witness :
  next_session (Env with_key offline) empty_session
    (Inputs (py "Moin") (py "password2") true false [] false [] false None)
  = initialised empty_session.
Proof.
  apply (failed_login_changes_nothing (Env with_key offline) empty_session
           (Inputs (py "Moin") (py "password2") true false [] false [] false None)).
  - apply reach_start.
  - reflexivity.
  - reflexivity.
  - vm_compute. reflexivity.
Defined.

(** * Further properties *)

(** ** Whitespace *)

Lemma lstrip_split s :
  exists ws, s = ws ++ lstrip s /\ blank ws = true.
Proof.
  induction s as [| c s (ws & Hs & Hw)]; simpl.
  - exists []. split; reflexivity.
  - destruct (isspace c) eqn:Hc.
    + exists (c :: ws). split; [simpl; congruence |].
      unfold blank in *. simpl. rewrite Hc. exact Hw.
    + exists []. split; reflexivity.
Qed.




Lemma lstrip_blank s : lstrip s = [] <-> blank s = true.
Proof.
  unfold blank. induction s as [| c s IH]; simpl; [tauto |].
  destruct (isspace c); simpl; [exact IH |]. split; discriminate.
Qed.

Lemma blank_rev s : blank (rev s) = blank s.
Proof.
  unfold blank. destruct (forallb isspace s) eqn:E.
  - rewrite forallb_forall in *. intros c Hc. apply E, in_rev, Hc.
  - destruct (forallb isspace (rev s)) eqn:E'; [| reflexivity].
    rewrite <- E. symmetry. rewrite forallb_forall in *.
    intros c Hc. apply E'. rewrite <- in_rev. exact Hc.
Qed.

Lemma rstrip_blank s : rstrip s = [] <-> blank s = true.
Proof.
  unfold rstrip. rewrite <- blank_rev, <- lstrip_blank.
  split; intros H.
  - apply (f_equal (@rev N)) in H. rewrite rev_involutive in H. exact H.
  - rewrite H. reflexivity.
Qed.

(** [strip] gives the empty string exactly for the blank strings. *)
Lemma strip_blank s : strip s = [] <-> blank s = true.
Proof.
  unfold strip. rewrite rstrip_blank. split; intros H.
  - destruct (lstrip_split s) as (ws & Hs & Hw).
    rewrite Hs. unfold blank in *. rewrite forallb_app, Hw, H. reflexivity.
  - assert (E : lstrip s = []) by (apply lstrip_blank; exact H).
    rewrite E. reflexivity.
Qed.




Lemma strip_test_blank s : bool_decide (strip s = []) = blank s.
Proof.
  destruct (blank s) eqn:E.
  - apply bool_decide_eq_true, strip_blank, E.
  - apply bool_decide_eq_false. intros H. apply strip_blank in H. congruence.
Qed.

(** X1: each tab sends its request exactly when its button is pressed and
    its text has a character that is not whitespace; a tab sends at most one
    request. *)
Theorem tabs_send_unless_blank chatbot inp e m :
  posts (trace (snd (tab1 chatbot inp e m)))
  = posts (trace m)
    ++ (if in_get_answer inp && negb (blank (in_question inp))
        then [completion_request chatbot (question_prompt (in_question inp)) 300]
        else [])
  /\ posts (trace (snd (tab2 chatbot inp e m)))
     = posts (trace m)
       ++ (if in_generate_ideas inp && negb (blank (in_topic inp))
           then [completion_request chatbot (topic_prompt (in_topic inp)) 400]
           else []).
Proof.
  split.
  - rewrite tab1_run. cbn [snd trace].
    rewrite posts_app, posts_tab1_events, strip_test_blank. reflexivity.
  - rewrite tab2_run. cbn [snd trace].
    rewrite posts_app, posts_tab2_events, strip_test_blank. reflexivity.
Qed.




(** ** How a run ends *)






(** ** Login and logout *)

(** X4: a login that [verify_password] accepts sets the login flag and the
    username, keeps the transcript, shows the success message and asks for a
    rerun without sending a request; the run that follows greets the user by
    that username. *)
Theorem login_success e s inp :
  logged_in (initialised s) = Some false ->
  in_submit inp = true ->
  verify_password (in_username inp) (in_password inp) = Done true ->
  run e s inp
  = (Abort Rerun,
     Machine (SessionState (Some true) (Some (in_username inp))
                (chat_history (initialised s)))
       (page_top ++ login_widgets
        ++ [St (success (py "Logged in successfully!"))]))
  /\ forall e' inp',
       exists rest,
         run_trace e' (next_session e s inp) inp'
         = page_top
           ++ St (sidebar_header (py "Welcome, " ++ in_username inp ++ py "!"))
              :: rest.
Proof.
  intros Hl Hsub Hv.
  assert (Hrun : run e s inp
                 = (Abort Rerun,
                    Machine (SessionState (Some true) (Some (in_username inp))
                               (chat_history (initialised s)))
                      (page_top ++ login_widgets
                       ++ [St (success (py "Logged in successfully!"))]))).
  { rewrite (run_logged_out e s inp Hl), login_form_run, Hsub, Hv. reflexivity. }
  split; [exact Hrun |].
  intros e' inp'. unfold next_session, run_trace. rewrite Hrun. cbn [snd session].
  rewrite run_logged_in by reflexivity. cbn [username default id].
  destruct (in_logout inp'); [eexists; reflexivity |].
  destruct (secrets e' !! py "NVIDIA_API_KEY"); eexists; reflexivity.
Qed.

Lemma login_success_witness :
  next_session (Env ∅ offline) empty_session
    (Inputs (py "Moin") (py "user1") true false [] false [] false None)
  = SessionState (Some true) (Some (py "Moin")) (Some []).
Proof.
  destruct (login_success (Env ∅ offline) empty_session
              (Inputs (py "Moin") (py "user1") true false [] false [] false None))
    as [Hrun _].
  - reflexivity.
  - reflexivity.
  - vm_compute. reflexivity.
  - unfold next_session. rewrite Hrun. reflexivity.
Defined.

(** X5: a run of a session that is not logged in reads neither the secrets
    nor the network: it is the same in every environment, and it sends no
    request, with or without an API key. *)
Theorem logged_out_run_ignores_env e e' s inp :
  logged_in (initialised s) = Some false ->
  run e s inp = run e' s inp
  /\ posts (run_trace e s inp) = [].
Proof.
  intros Hl. split.
  - rewrite !(run_logged_out _ s inp Hl), !login_form_run. reflexivity.
  - unfold run_trace. rewrite (run_logged_out e s inp Hl), login_form_posts.
    reflexivity.
Qed.

Lemma logged_out_run_ignores_env_witness :
  run (Env with_key (answering 200)) empty_session
    (Inputs (py "Moin") (py "user1") true false (py "Why?") true [] false
       (Some (py "Hello")))
  = run (Env ∅ offline) empty_session
      (Inputs (py "Moin") (py "user1") true false (py "Why?") true [] false
         (Some (py "Hello"))).
Proof.
  apply (logged_out_run_ignores_env (Env with_key (answering 200)) (Env ∅ offline)).
  reflexivity.
Defined.

(** X6: the logout button comes first: a run with it pressed clears the
    store and asks for a rerun before the client is built, so it sends no
    request and shows no error whatever else was filled in and whether or
    not the key is configured; the run that follows shows the login form. *)
Theorem logout_comes_first e s inp :
  logged_in (initialised s) = Some true ->
  in_logout inp = true ->
  run e s inp
  = (Abort Rerun,
     Machine (SessionState (Some false) (Some []) (Some []))
       (page_top
        ++ [St (sidebar_header (py "Welcome, " ++ default [] (username s) ++ py "!"));
            St (sidebar_button (py "Logout"))]))
  /\ posts (run_trace e s inp) = []
  /\ errors (run_trace e s inp) = []
  /\ forall e' inp',
       exists rest,
         run_trace e' (next_session e s inp) inp' = page_top ++ login_widgets ++ rest.
Proof.
  intros Hl Ho.
  assert (Hrun : run e s inp
                 = (Abort Rerun,
                    Machine cleared
                      (page_top ++ sidebar_events (default [] (username s))))).
  { rewrite (run_logged_in e s inp Hl), Ho. reflexivity. }
  split; [exact Hrun |].
  unfold run_trace, next_session. rewrite Hrun. cbn [snd trace session].
  split; [reflexivity |]. split; [reflexivity |].
  intros e' inp'. rewrite (run_logged_out e' cleared inp') by reflexivity.
  rewrite login_form_run.
  destruct (in_submit inp'); [destruct (verify_password _ _) as [[|] |] |];
    cbn [snd trace]; eexists; reflexivity.
Qed.

Lemma logout_comes_first_witness :
  posts (run_trace (Env with_key (answering 200)) moin_session
           (Inputs [] [] false true (py "Why?") true (py "shops") true
              (Some (py "Hello"))))
  = [].
Proof.
  destruct (logout_comes_first (Env with_key (answering 200)) moin_session
              (Inputs [] [] false true (py "Why?") true (py "shops") true
                 (Some (py "Hello"))))
    as (_ & H & _).
  - reflexivity.
  - reflexivity.
  - exact H.
Defined.

(** ** The requests of the client *)

Lemma headers_lookups self :
  dom (headers self) = {[py "Authorization"; py "Content-Type"]}
  /\ headers self !! py "Authorization" = Some (py "Bearer " ++ api_key self)
  /\ headers self !! py "Content-Type" = Some (py "application/json").
Proof.
  split; [| split].
  - unfold headers. rewrite !dom_insert_L, dom_empty_L. set_solver.
  - vm_compute. reflexivity.
  - vm_compute. reflexivity.
Qed.

Lemma completions_url :
  py "https://integrate.api.nvidia.com/v1" ++ py "/completions"
  = py "https://integrate.api.nvidia.com/v1/completions".
Proof. vm_compute. reflexivity. Qed.

(** X7: with the key in the secrets the constructor builds the client
    without drawing or logging anything, and every request of that client
    goes to https://integrate.api.nvidia.com/v1/completions with exactly two
    headers: Authorization, the word Bearer and the key, and Content-Type,
    application/json. *)
Theorem client_requests_carry_key e m k :
  secrets e !! py "NVIDIA_API_KEY" = Some k ->
  exists self,
    BusinessChatbot_init e m = (Done self, m)
    /\ api_key self = k
    /\ forall prompt max_tokens e' m',
         exists rq,
           posts (trace (snd (get_response self prompt max_tokens e' m')))
           = posts (trace m') ++ [rq]
           /\ rq_url rq = py "https://integrate.api.nvidia.com/v1/completions"
           /\ dom (rq_headers rq) = {[py "Authorization"; py "Content-Type"]}
           /\ rq_headers rq !! py "Authorization" = Some (py "Bearer " ++ k)
           /\ rq_headers rq !! py "Content-Type" = Some (py "application/json").
Proof.
  intros Hk. exists (client k).
  split; [rewrite BusinessChatbot_init_run, Hk; reflexivity |].
  split; [reflexivity |].
  intros prompt max_tokens e' m'.
  exists (completion_request (client k) prompt max_tokens).
  split; [apply posts_get_response |].
  split; [exact completions_url |].
  exact (headers_lookups (client k)).
Qed.

Lemma client_requests_carry_key_witness :
  BusinessChatbot_init (Env with_key offline) (Machine moin_session [])
  = (Done (client (py "secret")), Machine moin_session []).
Proof.
  destruct (client_requests_carry_key (Env with_key offline)
              (Machine moin_session []) (py "secret"))
    as (self & Hinit & Hkey & _).
  - vm_compute. reflexivity.
  - rewrite Hinit. destruct self as [key url].
    rewrite BusinessChatbot_init_run in Hinit.
    exact (eq_sym Hinit).
Defined.

(** X8: a run of a logged-in session sends at most three requests, in this
    order: the one of the question tab, the one of the topic tab, the one of
    the chat input, each only if its input is used and not blank (for the
    chat: not empty).  All of them go to the same URL with the same headers. *)
Theorem run_requests e s inp k :
  logged_in (initialised s) = Some true ->
  in_logout inp = false ->
  secrets e !! py "NVIDIA_API_KEY" = Some k ->
  posts (run_trace e s inp)
  = (if in_get_answer inp && negb (blank (in_question inp))
     then [completion_request (client k) (question_prompt (in_question inp)) 300]
     else [])
    ++ (if in_generate_ideas inp && negb (blank (in_topic inp))
        then [completion_request (client k) (topic_prompt (in_topic inp)) 400]
        else [])
    ++ match truthy (in_chat inp) with
       | Some user_input =>
           [completion_request (client k) (question_prompt user_input) 300]
       | None => []
       end
  /\ (length (posts (run_trace e s inp)) <= 3)%nat
  /\ Forall (fun rq =>
               rq_url rq = py "https://integrate.api.nvidia.com/v1/completions"
               /\ rq_headers rq = headers (client k))
       (posts (run_trace e s inp)).
Proof.
  intros Hl Ho Hk.
  destruct (posts_run_logged_in e s inp k Hl Ho Hk) as [_ Hp].
  rewrite Hp, posts_body_events, posts_tab1_events, posts_tab2_events,
    !strip_test_blank.
  split; [reflexivity |].
  destruct (in_get_answer inp && negb (blank (in_question inp)))%bool,
    (in_generate_ideas inp && negb (blank (in_topic inp)))%bool,
    (truthy (in_chat inp));
    (split; [cbn [app length]; lia |]);
    repeat constructor; exact completions_url.
Qed.

Lemma run_requests_witness :
  length (posts (run_trace (Env with_key (answering 200)) moin_session
                   (Inputs [] [] false false (py "Why?") true (py "  ") true
                      (Some (py "Hello")))))
  = 2%nat.
Proof.
  destruct (run_requests (Env with_key (answering 200)) moin_session
              (Inputs [] [] false false (py "Why?") true (py "  ") true
                 (Some (py "Hello"))) (py "secret"))
    as (Hp & _).
  - reflexivity.
  - reflexivity.
  - vm_compute. reflexivity.
  - rewrite Hp. vm_compute. reflexivity.
Defined.

Lemma extract_text_raises body :
  choices0_text body = None ->
  exists x,
    extract_text body = Abort (Raise x)
    /\ (x = KeyError \/ x = TypeError \/ x = IndexError \/ x = AttributeError).
Proof.
  unfold choices0_text, extract_text, getitem_str, getitem_int, method_strip.
  destruct body as [| | | | s | l | d]; simpl; eauto 6.
  destruct (d !! py "choices") as [choices |]; simpl; eauto 6.
  destruct choices as [| | | | s | l | d']; simpl; eauto 6.
  - destruct (s !! 0%nat); simpl; eauto 6.
  - destruct l as [| choice l]; simpl; eauto 6.
    destruct choice as [| | | | s | l' | c]; simpl; eauto 6.
    destruct (c !! py "text") as [text |]; simpl; eauto 6.
    destruct text; simpl; eauto 6; discriminate.
Qed.

(** X9: [get_response] logs every failure once, as the line API request
    failed: followed by the text of the exception it met: the one
    [requests.post] raised, HTTPError for a status from 400 to 599,
    JSONDecodeError for a body that is not JSON, and a KeyError, TypeError,
    IndexError or AttributeError for a body without a string
    [choices[0].text].  A request that succeeds logs nothing, and
    [get_response] itself draws nothing. *)
Theorem get_response_logs_failures self prompt max_tokens e m :
  let rq := completion_request self prompt max_tokens in
  let reply := net e (length (posts (trace m))) rq in
  let failure x :=
    [LogError (py "API request failed: "
               ++ exn_text e (length (posts (trace m))) rq x) (Some x)] in
  exists text log,
    get_response self prompt max_tokens e m
    = (Done text, Machine (session m) (trace m ++ Post rq :: log))
    /\ (forall x, reply = Failed x -> log = failure x)
    /\ (forall r, reply = Responded r -> (400 <= status_code r < 600)%Z ->
                  log = failure HTTPError)
    /\ (forall r, reply = Responded r -> ~ (400 <= status_code r < 600)%Z ->
                  json_body r = None -> log = failure JSONDecodeError)
    /\ (forall r body, reply = Responded r -> ~ (400 <= status_code r < 600)%Z ->
                       json_body r = Some body -> choices0_text body = None ->
                       exists x,
                         log = failure x
                         /\ (x = KeyError \/ x = TypeError
                             \/ x = IndexError \/ x = AttributeError))
    /\ (forall r body t, reply = Responded r -> ~ (400 <= status_code r < 600)%Z ->
                         json_body r = Some body -> choices0_text body = Some t ->
                         log = []).
Proof.
  intros rq reply failure.
  exists (reply_text reply), (reply_log e (length (posts (trace m))) rq).
  split; [apply get_response_run |].
  unfold reply_log, reply_outcome. fold reply.
  split; [intros x ->; reflexivity |].
  split.
  { intros r -> Hs. apply status_is_error in Hs. rewrite Hs. reflexivity. }
  assert (Hok : forall r, ~ (400 <= status_code r < 600)%Z ->
                  ((400 <=? status_code r) && (status_code r <? 600))%Z = false).
  { intros r Hs. destruct (_ && _)%bool eqn:E; [| reflexivity].
    apply status_is_error in E. contradiction. }
  split.
  { intros r -> Hs Hj. rewrite (Hok r Hs), Hj. reflexivity. }
  split.
  { intros r body -> Hs Hj Hc. rewrite (Hok r Hs), Hj.
    destruct (extract_text_raises body Hc) as (x & -> & Hx).
    exists x. split; [reflexivity | exact Hx]. }
  intros r body t -> Hs Hj Hc. rewrite (Hok r Hs), Hj.
  pose proof (extract_text_spec body) as He. rewrite Hc in He. rewrite He.
  reflexivity.
Qed.

Lemma get_response_logs_failures_witness :
  trace (snd (get_response (client (py "secret")) (py "Hi") 200
                (Env with_key (answering 503)) (Machine moin_session [])))
  = [Post (completion_request (client (py "secret")) (py "Hi") 200);
     LogError (py "API request failed: " ++ py "failed") (Some HTTPError)].
Proof.
  destruct (get_response_logs_failures (client (py "secret")) (py "Hi") 200
              (Env with_key (answering 503)) (Machine moin_session []))
    as (text & log & Hrun & _ & Hstatus & _).
  rewrite Hrun. cbn [snd trace app].
  rewrite (Hstatus (Response 503 (Some body_hello)));
    [reflexivity | reflexivity | simpl; lia].
Defined.

(** ** What the tabs and the chat do to the store *)



Lemma render_app h1 h2 : render (h1 ++ h2) = render h1 ++ render h2.
Proof. unfold render. apply flat_map_app. Qed.

(** X11: a chat turn shows the old transcript, then the user's text and the
    assistant's text, and stores exactly the two texts it showed, so that
    the next run redraws them after the old transcript.  When the network
    is down, the assistant's text, shown and stored, is the fallback string. *)
Theorem chat_turn_shown_and_stored e s inp k user_input :
  logged_in (initialised s) = Some true ->
  in_logout inp = false ->
  secrets e !! py "NVIDIA_API_KEY" = Some k ->
  in_chat inp = Some user_input ->
  user_input <> [] ->
  let history := default [] (chat_history s) in
  exists response before log,
    chat_history (next_session e s inp)
    = Some (history ++ [(py "user", user_input); (py "assistant", response)])
    /\ run_trace e s inp
       = before ++ render history
         ++ [St (chat_input (py "Ask me anything about business:"));
             St (chat_message (py "user")); St (write user_input);
             St (chat_message (py "assistant")); St (spinner (py "Thinking..."));
             Post (completion_request (client k) (question_prompt user_input) 300)]
         ++ log ++ [St (write response)]
    /\ posts log = []
    /\ render (history ++ [(py "user", user_input); (py "assistant", response)])
       = render history
         ++ [St (chat_message (py "user")); St (write user_input);
             St (chat_message (py "assistant")); St (write response)]
    /\ ((forall n rq, exists x, net e n rq = Failed x) -> response = fallback).
Proof.
  intros Hl Ho Hk Hc Hn history.
  assert (Ht : truthy (in_chat inp) = Some user_input)
    by (apply truthy_Some; split; assumption).
  destruct (posts_run_logged_in e s inp k Hl Ho Hk) as [Htr _].
  set (t1 := tab1_events (client k) inp e 0).
  set (t2 := tab2_events (client k) inp e (length (posts t1))).
  set (n := (length (posts t1) + length (posts t2))%nat).
  set (rq := completion_request (client k) (question_prompt user_input) 300).
  exists (reply_text (net e n rq)),
    (page_top ++ sidebar_events (default [] (username s)) ++ [tabs_event]
     ++ t1 ++ t2 ++ [St (header ([0x1F4AC] ++ py " Chat with Business AI"))]),
    (reply_log e n rq).
  split.
  { unfold next_session. rewrite (run_logged_in e s inp Hl), Ho, Hk.
    cbn [snd session chat_history]. unfold chat_history_after. rewrite Ht.
    reflexivity. }
  split.
  { rewrite Htr. unfold body_events. cbn zeta. fold t1. fold t2. fold n.
    unfold chat_events. rewrite Ht. fold rq. fold history.
    rewrite <- !app_assoc. reflexivity. }
  split; [apply posts_reply_log |].
  split; [rewrite render_app; reflexivity |].
  intros Hdown. destruct (Hdown n rq) as [x Hx]. rewrite Hx. reflexivity.
Qed.

Lemma chat_turn_shown_and_stored_witness :
  chat_history (next_session (Env with_key offline) moin_session
                  (chatting (py "Hello")))
  = Some [(py "user", py "Hello"); (py "assistant", fallback)].
Proof.
  destruct (chat_turn_shown_and_stored (Env with_key offline) moin_session
              (chatting (py "Hello")) (py "secret") (py "Hello"))
    as (response & before & log & Hh & _ & _ & _ & Hdown).
  - reflexivity.
  - reflexivity.
  - vm_compute. reflexivity.
  - reflexivity.
  - intros E. vm_compute in E. discriminate.
  - rewrite Hh, Hdown; [reflexivity |].
    intros n rq. exists ConnectionError. reflexivity.
Defined.

(** ** Who is logged in *)

Lemma verify_password_true_registered username password :
  verify_password username password = Done true ->
  exists stored, users !! username = Some stored.
Proof.
  unfold verify_password.
  destruct (users !! username) as [stored |]; [eauto | discriminate].
Qed.

Lemma reachable_registered s : reachable s -> session_registered s.
Proof.
  induction 1 as [| e s inp Hr IH].
  - left. reflexivity.
  - destruct (next_session_cases e s inp)
      as [Hn | [(Hl & _ & Hv & Hn) | [(_ & _ & Hn)
            | (Hl & _ & u & k & n & _ & _ & _ & Hn)]]];
      rewrite Hn; clear Hn.
    + destruct IH as [-> | [-> | (user & stored & history & -> & Hu)]].
      * right. left. reflexivity.
      * right. left. reflexivity.
      * right. right. exists user, stored, history. split; [reflexivity | exact Hu].
    + right. right.
      destruct (verify_password_true_registered _ _ Hv) as [stored Hu].
      eexists _, stored, _. split; [reflexivity | exact Hu].
    + right. left. reflexivity.
    + right. right.
      destruct IH as [-> | [-> | (user & stored & history & -> & Hu)]];
        try discriminate Hl.
      eexists user, stored, _. split; [reflexivity | exact Hu].
Qed.

(** X12: in every store a browser session reaches, a logged-in user is one
    of the two registered usernames; a store that is not logged in holds the
    empty username and an empty transcript. *)
Theorem logged_in_user_is_registered s :
  reachable s ->
  (logged_in s = Some true ->
   exists user,
     username s = Some user
     /\ is_Some (users !! user)
     /\ (user = py "Moin" \/ user = py "user2"))
  /\ (logged_in s = Some false ->
      username s = Some [] /\ chat_history s = Some []).
Proof.
  intros Hr.
  destruct (reachable_registered s Hr)
    as [-> | [-> | (user & stored & history & -> & Hu)]].
  - split; discriminate.
  - split; [discriminate |]. intros _. split; reflexivity.
  - split; [| discriminate]. intros _. exists user.
    split; [reflexivity |]. split; [eauto |].
    apply users_registered in Hu as [[-> _] | [-> _]]; [left | right]; reflexivity.
Qed.

Lemma logged_in_user_is_registered_witness :
  exists user,
    username (next_session (Env ∅ offline) empty_session
                (Inputs (py "user2") (py "password2") true false [] false [] false None))
    = Some user
    /\ (user = py "Moin" \/ user = py "user2").
Proof.
  destruct (logged_in_user_is_registered
              (next_session (Env ∅ offline) empty_session
                 (Inputs (py "user2") (py "password2") true false [] false [] false None)))
    as [H _].
  - apply reach_run, reach_start.
  - destruct H as (user & Hu & _ & Hn); [vm_compute; reflexivity |].
    exists user. split; assumption.
Defined.

(** ** Where the API key goes *)

(** The text of a logged exception may quote the request: with a key that
    is no legal header value, [requests] raises InvalidHeader with the
    header in its text, and the key is in the log. *)
Example api_key_reaches_log :
  trace (snd (get_response (client (py "secret")) (py "Hi") 200
                (Environment (Secrets with_key) (fun _ _ => Failed InvalidHeader)
                   quoting_header)
                (Machine moin_session [])))
  = [Post (completion_request (client (py "secret")) (py "Hi") 200);
     LogError (py "API request failed: Bearer secret") (Some InvalidHeader)].
Proof. vm_compute. reflexivity. Qed.

Lemma drawn_redact t : drawn (map redact t) = drawn t.
Proof.
  induction t as [| ev t IH]; [reflexivity |].
  destruct ev as [msg [x |] | rq | c]; cbn [map redact drawn flat_map app] in *;
    fold (drawn (map redact t)); fold (drawn t); rewrite IH; reflexivity.
Qed.

Section Key.
Variables (e1 e2 : env) (k1 k2 : pystr).
Hypothesis same_answers :
  forall n prompt max_tokens,
    net e1 n (completion_request (client k1) prompt max_tokens)
    = net e2 n (completion_request (client k2) prompt max_tokens).

Lemma redact_reply_log n prompt max_tokens :
  map redact (reply_log e1 n (completion_request (client k1) prompt max_tokens))
  = map redact (reply_log e2 n (completion_request (client k2) prompt max_tokens)).
Proof.
  unfold reply_log. rewrite same_answers.
  destruct (reply_outcome _) as [| [| |]]; reflexivity.
Qed.

Lemma redact_tab1_events inp n :
  map redact (tab1_events (client k1) inp e1 n)
  = map redact (tab1_events (client k2) inp e2 n).
Proof.
  unfold tab1_events. rewrite !map_app. f_equal.
  destruct (in_get_answer inp); [| reflexivity].
  destruct (bool_decide _); [reflexivity |].
  cbn zeta. rewrite !map_app, redact_reply_log, same_answers. reflexivity.
Qed.

Lemma redact_tab2_events inp n :
  map redact (tab2_events (client k1) inp e1 n)
  = map redact (tab2_events (client k2) inp e2 n).
Proof.
  unfold tab2_events. rewrite !map_app. f_equal.
  destruct (in_generate_ideas inp); [| reflexivity].
  destruct (bool_decide _); [reflexivity |].
  cbn zeta. rewrite !map_app, redact_reply_log, same_answers. reflexivity.
Qed.

Lemma redact_chat_events inp history n :
  map redact (chat_events (client k1) inp history e1 n)
  = map redact (chat_events (client k2) inp history e2 n).
Proof.
  unfold chat_events. rewrite !map_app. do 3 f_equal.
  destruct (truthy (in_chat inp)); [| reflexivity].
  cbn zeta. rewrite !map_app, redact_reply_log, same_answers. reflexivity.
Qed.

Lemma redact_body_events inp history :
  map redact (body_events (client k1) inp history e1)
  = map redact (body_events (client k2) inp history e2).
Proof.
  unfold body_events. cbn zeta.
  rewrite !map_app, !length_posts_tab1, !length_posts_tab2.
  rewrite redact_tab1_events, redact_tab2_events, redact_chat_events.
  reflexivity.
Qed.

Lemma same_chat_history_after inp history :
  chat_history_after (client k1) inp history e1
    (length (posts (tab1_events (client k1) inp e1 0))
     + length (posts (tab2_events (client k1) inp e1
                        (length (posts (tab1_events (client k1) inp e1 0))))))
  = chat_history_after (client k2) inp history e2
      (length (posts (tab1_events (client k2) inp e2 0))
       + length (posts (tab2_events (client k2) inp e2
                          (length (posts (tab1_events (client k2) inp e2 0)))))).
Proof.
  rewrite !length_posts_tab1, !length_posts_tab2.
  unfold chat_history_after.
  destruct (truthy (in_chat inp)); [| reflexivity].
  cbn zeta. rewrite same_answers. reflexivity.
Qed.

End Key.

(** X13: the API key is never drawn and never stored.  Two runs from the
    same store with the same widget values, under two keys, with a network
    that answers both alike, end alike, leave the same store and draw the
    same; their traces differ at most in the headers of the requests and in
    the text of the logged exceptions, which may quote the request. *)
Theorem api_key_not_drawn_or_stored e1 e2 k1 k2 s inp :
  secrets e1 !! py "NVIDIA_API_KEY" = Some k1 ->
  secrets e2 !! py "NVIDIA_API_KEY" = Some k2 ->
  (forall n prompt max_tokens,
     net e1 n (completion_request (client k1) prompt max_tokens)
     = net e2 n (completion_request (client k2) prompt max_tokens)) ->
  fst (run e1 s inp) = fst (run e2 s inp)
  /\ next_session e1 s inp = next_session e2 s inp
  /\ drawn (run_trace e1 s inp) = drawn (run_trace e2 s inp)
  /\ map redact (run_trace e1 s inp) = map redact (run_trace e2 s inp).
Proof.
  intros H1 H2 Hnet.
  assert (H : fst (run e1 s inp) = fst (run e2 s inp)
              /\ next_session e1 s inp = next_session e2 s inp
              /\ map redact (run_trace e1 s inp) = map redact (run_trace e2 s inp)).
  { unfold next_session, run_trace.
    destruct (logged_in_initialised s) as [Hl | Hl].
    - rewrite !(run_logged_in _ s inp Hl), H1, H2.
      destruct (in_logout inp); [repeat split |].
      cbn [fst snd session trace].
      split; [reflexivity |]. split.
      + rewrite (same_chat_history_after e1 e2 k1 k2 Hnet). reflexivity.
      + rewrite !map_app, (redact_body_events e1 e2 k1 k2 Hnet). reflexivity.
    - rewrite !(run_logged_out _ s inp Hl), !login_form_run.
      repeat split. }
  destruct H as (Ho & Hs & Ht).
  split; [exact Ho |]. split; [exact Hs |]. split; [| exact Ht].
  rewrite <- (drawn_redact (run_trace e1 s inp)), Ht. apply drawn_redact.
Qed.

Lemma api_key_not_drawn_or_stored_witness :
  drawn (run_trace (Env with_key (answering 200)) moin_session
           (chatting (py "Hello")))
  = drawn (run_trace (Environment (Secrets (<[py "NVIDIA_API_KEY" := py "other"]> ∅))
                        (answering 200) quoting_header)
             moin_session (chatting (py "Hello"))).
Proof.
  apply (api_key_not_drawn_or_stored (Env with_key (answering 200))
           (Environment (Secrets (<[py "NVIDIA_API_KEY" := py "other"]> ∅))
              (answering 200) quoting_header)
           (py "secret") (py "other")).
  - vm_compute. reflexivity.
  - vm_compute. reflexivity.
  - intros n prompt max_tokens. reflexivity.
Defined.

(** ** The keys of the store *)

(** X14: after every run, however it ends, the three keys of the store are
    set.  A run in which the user does nothing (no login submitted, no
    logout, no chat input) keeps every key that was set and gives a missing
    one its default: False, the empty string, the empty list. *)
Theorem store_keys_set_after_run e s inp :
  (exists b user history,
     next_session e s inp = SessionState (Some b) (Some user) (Some history))
  /\ (in_submit inp = false -> in_logout inp = false ->
      truthy (in_chat inp) = None ->
      next_session e s inp
      = SessionState (Some (default false (logged_in s)))
                     (Some (default [] (username s)))
                     (Some (default [] (chat_history s)))).
Proof.
  split.
  - destruct (next_session_cases e s inp)
      as [Hn | [(_ & _ & _ & Hn) | [(_ & _ & Hn)
            | (_ & _ & u & k & n & _ & _ & _ & Hn)]]];
      rewrite Hn; eexists _, _, _; reflexivity.
  - intros Hsub Ho Hc.
    destruct (next_session_cases e s inp)
      as [Hn | [(_ & Hsub' & _) | [(_ & Ho' & _)
            | (_ & _ & u & k & n & Hc' & Hu & _)]]].
    + exact Hn.
    + congruence.
    + congruence.
    + assert (Ht : truthy (in_chat inp) = Some u)
        by (apply truthy_Some; split; assumption).
      congruence.
Qed.

Lemma store_keys_set_after_run_witness :
  next_session (Env ∅ offline) (SessionState None (Some (py "x")) None)
    (Inputs [] [] false false (py "Why?") true [] false (Some []))
  = SessionState (Some false) (Some (py "x")) (Some []).
Proof.
  destruct (store_keys_set_after_run (Env ∅ offline)
              (SessionState None (Some (py "x")) None)
              (Inputs [] [] false false (py "Why?") true [] false (Some [])))
    as [_ H].
  apply H; reflexivity.
Defined.

(** ** The prompts *)

(** X15: the prompts lose nothing of their input: two questions with the
    same prompt are the same question, two topics with the same prompt are
    the same topic, and no question prompt is a topic prompt. *)
Theorem prompts_injective :
  (forall q1 q2, question_prompt q1 = question_prompt q2 -> q1 = q2)
  /\ (forall t1 t2, topic_prompt t1 = topic_prompt t2 -> t1 = t2)
  /\ (forall q t, question_prompt q <> topic_prompt t).
Proof.
  split; [| split].
  - intros q1 q2 H. unfold question_prompt in H.
    do 4 apply app_inv_head in H. apply app_inv_tail in H. exact H.
  - intros t1 t2 H. unfold topic_prompt in H.
    do 4 apply app_inv_head in H. apply app_inv_tail in H. exact H.
  - intros q t H. apply (f_equal (fun l => nth 10 l 0)) in H.
    vm_compute in H. discriminate.
Qed.

Lemma prompts_injective_witness :
  question_prompt (py "What is ROI?") <> topic_prompt (py "What is ROI?").
Proof.
  destruct prompts_injective as (_ & _ & H). apply H.
Defined.

(** ** Encoding and digest *)

Lemma length_be_bytes n x : length (SHA256.be_bytes n x) = n.
Proof. unfold SHA256.be_bytes. rewrite length_map, length_rev, length_seq. reflexivity. Qed.

Lemma be_bytes_bound n x : Forall (fun b => b < 256) (SHA256.be_bytes n x).
Proof.
  unfold SHA256.be_bytes. apply List.Forall_map, List.Forall_forall.
  intros i _. change 0xFF with (N.ones 8). rewrite N.land_ones.
  apply N.mod_lt. discriminate.
Qed.

Lemma length_digest msg : length (SHA256.digest msg) = 32%nat.
Proof.
  unfold SHA256.digest. cbn [flat_map].
  rewrite !length_app, !length_be_bytes. reflexivity.
Qed.

Lemma digest_bound msg : Forall (fun b => b < 256) (SHA256.digest msg).
Proof.
  unfold SHA256.digest. cbn [flat_map].
  repeat (apply Forall_app; split); try apply be_bytes_bound. constructor.
Qed.

Lemma hexdigit_is_hex d : d < 16 -> is_hex (SHA256.hexdigit d) = true.
Proof.
  intros Hd. unfold is_hex, SHA256.hexdigit.
  destruct (N.ltb_spec d 10).
  - apply orb_true_iff. left. apply andb_true_iff.
    split; apply N.leb_le; lia.
  - apply orb_true_iff. right. apply andb_true_iff.
    split; apply N.leb_le; lia.
Qed.

Lemma hex_of_bytes bytes :
  Forall (fun b => b < 256) bytes ->
  let hex := flat_map (fun b => [SHA256.hexdigit (N.shiftr b 4);
                                 SHA256.hexdigit (N.land b 0xF)]) bytes in
  length hex = (2 * length bytes)%nat /\ forallb is_hex hex = true.
Proof.
  induction 1 as [| b bytes Hlt Hb [IHl IHh]]; [split; reflexivity |].
  cbn [flat_map app length forallb]. split; [rewrite IHl; lia |].
  rewrite IHh, !hexdigit_is_hex; [reflexivity | |].
  - change 0xF with (N.ones 4). rewrite N.land_ones.
    apply N.mod_lt. discriminate.
  - rewrite N.shiftr_div_pow2. apply N.Div0.div_lt_upper_bound.
    change (2 ^ 4 * 16) with 256. exact Hlt.
Qed.

Lemma hexdigest_format msg :
  length (SHA256.hexdigest msg) = 64%nat
  /\ forallb is_hex (SHA256.hexdigest msg) = true.
Proof.
  destruct (hex_of_bytes (SHA256.digest msg) (digest_bound msg)) as [Hl Hh].
  unfold SHA256.hexdigest. rewrite Hl, length_digest. split; [reflexivity | exact Hh].
Qed.

Lemma encode_ascii s : forallb is_ascii s = true -> encode s = Some s.
Proof.
  induction s as [| c s IH]; [reflexivity |].
  cbn [forallb encode]. intros H. apply andb_true_iff in H as [Hc Hs].
  unfold encode_char. unfold is_ascii in Hc. rewrite Hc, (IH Hs). reflexivity.
Qed.

(** X16: the digest of a string that UTF-8 can encode is a string of 64
    lowercase hexadecimal digits, and a string that cannot be encoded has no
    digest: hashing it raises UnicodeEncodeError.  Every digest stored in
    [users] has that form. *)
Theorem sha256_hex_format s :
  (encodable s = true ->
   exists d,
     sha256_hex s = Done d /\ length d = 64%nat /\ forallb is_hex d = true)
  /\ (encodable s = false -> sha256_hex s = Abort (Raise UnicodeEncodeError))
  /\ (forall username stored,
        users !! username = Some stored ->
        length stored = 64%nat /\ forallb is_hex stored = true).
Proof.
  assert (Hdone : forall t d, sha256_hex t = Done d ->
                    length d = 64%nat /\ forallb is_hex d = true).
  { intros t d. unfold sha256_hex. destruct (encode t) as [bytes |]; [| discriminate].
    intros H. injection H as <-. apply hexdigest_format. }
  split; [| split].
  - intros He. apply encode_encodable in He as [bytes He].
    exists (SHA256.hexdigest bytes).
    assert (Hs : sha256_hex s = Done (SHA256.hexdigest bytes))
      by (unfold sha256_hex; rewrite He; reflexivity).
    split; [exact Hs | exact (Hdone _ _ Hs)].
  - intros He. apply encode_not_encodable in He.
    unfold sha256_hex. rewrite He. reflexivity.
  - intros username stored Hu.
    apply users_registered in Hu as [[_ H] | [_ H]]; exact (Hdone _ _ H).
Qed.

Lemma sha256_hex_format_witness :
  exists d, sha256_hex [0xE9; 0x20AC; 0x1F600] = Done d /\ length d = 64%nat.
Proof.
  destruct (sha256_hex_format [0xE9; 0x20AC; 0x1F600]) as (H & _).
  destruct H as (d & Hd & Hl & _); [reflexivity |].
  exists d. split; assumption.
Defined.

(** X17: for a password of ASCII characters, the empty one too,
    [verify_password] never raises: the bytes it hashes are the characters
    themselves, and it answers whether a digest is stored for the username
    and equals theirs. *)
Theorem verify_password_ascii username password :
  forallb is_ascii password = true ->
  verify_password username password
  = Done match users !! username with
         | Some stored => bool_decide (stored = SHA256.hexdigest password)
         | None => false
         end.
Proof.
  intros Ha. unfold verify_password, sha256_hex.
  rewrite (encode_ascii password Ha).
  destruct (users !! username); reflexivity.
Qed.

Lemma verify_password_ascii_witness :
  verify_password (py "user2") [] = Done false.
Proof.
  rewrite (verify_password_ascii (py "user2") []); [| reflexivity].
  vm_compute. reflexivity.
Defined.

(** ** The top of the page *)

(** X18: every run, however it ends, first sets the page configuration,
    then writes the style sheet of [set_dark_mode_style], then the title. *)
Theorem page_top_first e s inp :
  exists rest,
    run_trace e s inp
    = St (set_page_config (py "Business AI Assistant"))
      :: St markdown_style
      :: St (title ([0x1F4BC] ++ py " Professional Business AI Assistant"))
      :: rest.
Proof.
  unfold run_trace.
  destruct (logged_in_initialised s) as [Hl | Hl].
  - rewrite (run_logged_in e s inp Hl).
    destruct (in_logout inp); [eexists; reflexivity |].
    destruct (secrets e !! py "NVIDIA_API_KEY"); eexists; reflexivity.
  - rewrite (run_logged_out e s inp Hl), login_form_run.
    destruct (in_submit inp); [destruct (verify_password _ _) as [[|] |] |];
      eexists; reflexivity.
Qed.
